(** * The MCP learning server: capability dispatch over an in-memory task store

    A shallow embedding of [mcp_server.py].  The handlers registered with the
    server are Python coroutines that read and mutate the module-level list
    [TASKS_DB], look at the [notes] directory and either return a result
    object or raise.  They are embedded as state-passing functions over the
    task list whose outcome is either a returned value or a raised exception.

    Python values that reach the handlers through the [arguments] dictionary
    are JSON scalars; integers are unbounded, so they are [Z].  Strings are
    sequences of bytes (the UTF-8 encoding of the Python text). *)

From Stdlib Require Import ZArith Ascii String DecimalString Permutation.
From stdpp Require Import base option list gmap strings.

Local Open Scope Z_scope.

(** ** Python values and exceptions *)

Module Py.

(** The scalars a decoded JSON argument can be (floats are left out). *)
Inductive value : Type :=
| Int (n : Z)
| Str (s : string)
| Bool (b : bool)
| None_.

Definition LF : string := String (ascii_of_nat 10) EmptyString.
Definition DQUOTE : string := String (ascii_of_nat 34) EmptyString.

(** [str(n)] for an integer: decimal digits, a leading minus sign. *)
Definition str_int (n : Z) : string := NilZero.string_of_int (Z.to_int n).

(** [str(v)], which is also what an f-string field [{v}] expands to. *)
Definition str (v : value) : string :=
  match v with
  | Int n => str_int n
  | Str s => s
  | Bool true => "True"
  | Bool false => "False"
  | None_ => "None"
  end.

(** The name [type(v).__name__], used in messages of [TypeError]. *)
Definition type_name (v : value) : string :=
  match v with
  | Int _ => "int"
  | Str _ => "str"
  | Bool _ => "bool"
  | None_ => "NoneType"
  end.

(** [a == b].  [bool] is a subclass of [int]: [True == 1]. *)
Definition eqb (a b : value) : bool :=
  match a, b with
  | Int m, Int n => Z.eqb m n
  | Int m, Bool c | Bool c, Int m => Z.eqb m (if c then 1 else 0)
  | Bool c, Bool d => Bool.eqb c d
  | Str s, Str t => String.eqb s t
  | None_, None_ => true
  | _, _ => false
  end.

(** The exception classes that occur, with the two that derive from
    [BaseException] only.  [OSError] stands for the error of a call into the
    operating system, in whichever of its subclasses; [ValidationError] is
    the error with which a class of the protocol library rejects the fields
    it is constructed with. *)
Inductive exn_class : Type :=
| KeyError | ValueError | TypeError | AttributeError | FileNotFoundError
| ZeroDivisionError | SyntaxError | OverflowError | MemoryError
| RecursionError | OSError | UnicodeDecodeError | ValidationError
| KeyboardInterrupt | SystemExit.

(** [issubclass(c, Exception)]. *)
Definition is_Exception (c : exn_class) : bool :=
  match c with
  | KeyboardInterrupt | SystemExit => false
  | _ => true
  end.

(** A raised exception: its class and [str(e)]. *)
Record exn : Type := Exn { class : exn_class; message : string }.

(** What running a piece of code gives. *)
Inductive outcome (A : Type) : Type :=
| Return (a : A)
| Raise (e : exn).
Arguments Return {A} a.
Arguments Raise {A} e.

(** [max(xs)]: the first item, replaced by each later item that compares
    greater; [ValueError] on an empty iterable (the wording of its message
    varies between interpreter versions). *)
Definition max (xs : list Z) : outcome Z :=
  match xs with
  | [] => Raise (Exn ValueError "max() iterable argument is empty")
  | x :: rest => Return (fold_left (fun m y => if y >? m then y else m) rest x)
  end.

End Py.

(** ** The task store *)

(** One dictionary of [TASKS_DB].  The seed records have no ["description"]
    key; the records made by [add_task] do. *)
Record Task : Type := mkTask {
  tk_id : Z;
  tk_title : Py.value;
  tk_description : option Py.value;
  tk_completed : bool;
  tk_created : string
}.

Definition set_completed (b : bool) (task : Task) : Task :=
  {| tk_id := tk_id task; tk_title := tk_title task;
     tk_description := tk_description task; tk_completed := b;
     tk_created := tk_created task |}.

Definition TASKS_DB : list Task :=
  [ mkTask 1 (Py.Str "Learn MCP basics") None false "2025-08-15";
    mkTask 2 (Py.Str "Build a simple tool") None true "2025-08-14";
    mkTask 3 (Py.Str "Understand resources") None false "2025-08-15" ].

(** ** Handlers as state-passing computations that may raise *)

(** A handler body runs against the current task list and gives an outcome
    together with the task list it leaves behind.  A raise does not roll the
    list back. *)
Definition handler (A : Type) : Type := list Task -> Py.outcome A * list Task.

Definition ret {A} (a : A) : handler A := fun db => (Py.Return a, db).
Definition raise {A} (e : Py.exn) : handler A := fun db => (Py.Raise e, db).
Definition bind {A B} (m : handler A) (k : A -> handler B) : handler B :=
  fun db =>
    match m db with
    | (Py.Return a, db') => k a db'
    | (Py.Raise e, db') => (Py.Raise e, db')
    end.
Definition get_db : handler (list Task) := fun db => (Py.Return db, db).
Definition put_db (db' : list Task) : handler unit := fun _ => (Py.Return tt, db').
Definition lift {A} (o : Py.outcome A) : handler A := fun db => (o, db).

(** [try: body except Exception as e: h e]. *)
Definition try_except_Exception {A} (body : handler A) (h : Py.exn -> handler A)
  : handler A :=
  fun db =>
    match body db with
    | (Py.Raise e, db') =>
        if Py.is_Exception (Py.class e) then h e db' else (Py.Raise e, db')
    | r => r
    end.

Declare Scope handler_scope.
Delimit Scope handler_scope with handler.
Notation "'do' x <- m ; k" := (bind m (fun x => k))
  (at level 10, x name, m at level 100, k at level 200) : handler_scope.
Notation "'run' m ; k" := (bind m (fun _ => k))
  (at level 10, m at level 100, k at level 200) : handler_scope.

(** [d[k]]: a missing key raises [KeyError(k)], whose [str] is [repr(k)]
    (the keys looked up are literals without quotes or escapes). *)
Definition getitem (d : gmap string Py.value) (k : string) : handler Py.value :=
  match d !! k with
  | Some v => ret v
  | None => raise (Py.Exn Py.KeyError ("'" +:+ k +:+ "'"))
  end.

(** [d.get(k, default)]. *)
Definition get_default (d : gmap string Py.value) (k : string) (dflt : Py.value)
  : Py.value :=
  default dflt (d !! k).

(** ** Result objects *)

Record TextContent : Type := mkTextContent { type : string; text : string }.
Record CallToolResult : Type := mkCallToolResult { content : list TextContent }.

Definition text_result (s : string) : CallToolResult :=
  mkCallToolResult [mkTextContent "text" s].

(** ** Python's [eval] on calculator input

    [calculate] hands the expression to the interpreter's [eval].  The part
    of Python's expression language that integer arithmetic needs is embedded
    here: decimal integer literals, unary and binary [+] and [-], [*], [/]
    and parentheses, with Python's grammar ([sum], [term], [factor], [atom])
    and its left-to-right evaluation.  Everything else that the allowed
    characters can spell (floats, [**], [//], calls, the empty tuple, syntax
    errors) belongs to the rest of the interpreter, which is taken as a
    parameter where [eval] is used. *)

Module Calc.

Inductive token : Type :=
| TNum (n : Z) | TPlus | TMinus | TStar | TSlash | TLParen | TRParen.

Definition is_digit (c : ascii) : bool :=
  let n := nat_of_ascii c in (48 <=? n)%nat && (n <=? 57)%nat.

Definition digit_value (c : ascii) : Z := Z.of_nat (nat_of_ascii c - 48).

(** The value of a run of decimal digits, most significant first. *)
Definition digits_value (ds : list ascii) : Z :=
  fold_left (fun acc c => 10 * acc + digit_value c) ds 0.

(** A decimal integer literal may start with [0] only when it is all
    zeros. *)
Definition literal_ok (ds : list ascii) : bool :=
  match ds with
  | [] => false
  | c :: rest =>
      if Ascii.eqb c "0" then forallb (fun d => Ascii.eqb d "0") rest else true
  end.

(** Close the digit run [num] (kept in reverse) in front of [rest]. *)
Definition flush (num : list ascii) (rest : option (list token))
  : option (list token) :=
  match num with
  | [] => rest
  | _ =>
      let ds := rev num in
      if literal_ok ds
      then match rest with
           | Some ts => Some (TNum (digits_value ds) :: ts)
           | None => None
           end
      else None
  end.

Definition starts_with (c : ascii) (s : string) : bool :=
  match s with
  | String d _ => Ascii.eqb c d
  | EmptyString => false
  end.

(** Split the input into tokens.  Spaces separate tokens; [**], [//] and
    any [.] leave the embedded fragment ([None]). *)
Fixpoint lex (num : list ascii) (s : string) : option (list token) :=
  match s with
  | EmptyString => flush num (Some [])
  | String c s' =>
      if is_digit c then lex (c :: num) s'
      else
        let simple (t : token) :=
          flush num (match lex [] s' with
                     | Some ts => Some (t :: ts)
                     | None => None
                     end) in
        if Ascii.eqb c " " then flush num (lex [] s')
        else if Ascii.eqb c "+" then simple TPlus
        else if Ascii.eqb c "-" then simple TMinus
        else if Ascii.eqb c "(" then simple TLParen
        else if Ascii.eqb c ")" then simple TRParen
        else if Ascii.eqb c "*"
             then if starts_with "*" s' then None else simple TStar
        else if Ascii.eqb c "/"
             then if starts_with "/" s' then None else simple TSlash
        else None
  end.

Inductive expr : Type :=
| Num (n : Z)
| UAdd (e : expr) | USub (e : expr)
| Add (a b : expr) | Sub (a b : expr) | Mult (a b : expr) | Div (a b : expr).

(** The non-terminals of the grammar; the two tails carry the operand
    parsed so far, which makes the operators left-associative. *)
Inductive nonterminal : Type :=
| NSum | NSumTail (lhs : expr)
| NTerm | NTermTail (lhs : expr)
| NFactor.

(** Recursive descent, [fuel] bounding the depth of the descent. *)
Fixpoint parse (fuel : nat) (nt : nonterminal) (ts : list token)
  : option (expr * list token) :=
  match fuel with
  | O => None
  | S fuel =>
      match nt with
      | NSum =>
          match parse fuel NTerm ts with
          | Some (e, r) => parse fuel (NSumTail e) r
          | None => None
          end
      | NSumTail lhs =>
          match ts with
          | TPlus :: r =>
              match parse fuel NTerm r with
              | Some (e, r') => parse fuel (NSumTail (Add lhs e)) r'
              | None => None
              end
          | TMinus :: r =>
              match parse fuel NTerm r with
              | Some (e, r') => parse fuel (NSumTail (Sub lhs e)) r'
              | None => None
              end
          | _ => Some (lhs, ts)
          end
      | NTerm =>
          match parse fuel NFactor ts with
          | Some (e, r) => parse fuel (NTermTail e) r
          | None => None
          end
      | NTermTail lhs =>
          match ts with
          | TStar :: r =>
              match parse fuel NFactor r with
              | Some (e, r') => parse fuel (NTermTail (Mult lhs e)) r'
              | None => None
              end
          | TSlash :: r =>
              match parse fuel NFactor r with
              | Some (e, r') => parse fuel (NTermTail (Div lhs e)) r'
              | None => None
              end
          | _ => Some (lhs, ts)
          end
      | NFactor =>
          match ts with
          | TPlus :: r =>
              match parse fuel NFactor r with
              | Some (e, r') => Some (UAdd e, r')
              | None => None
              end
          | TMinus :: r =>
              match parse fuel NFactor r with
              | Some (e, r') => Some (USub e, r')
              | None => None
              end
          | TNum n :: r => Some (Num n, r)
          | TLParen :: r =>
              match parse fuel NSum r with
              | Some (e, TRParen :: r') => Some (e, r')
              | _ => None
              end
          | _ => None
          end
      end
  end.

(** What the embedded fragment knows about an expression: its integer
    value, the exception its evaluation raises, or that it leaves the
    fragment. *)
Inductive verdict : Type :=
| Value (n : Z)
| Throws (e : Py.exn)
| Beyond.

Definition binop (a b : verdict) (f : Z -> Z -> verdict) : verdict :=
  match a with
  | Value x => match b with
               | Value y => f x y
               | other => other
               end
  | other => other
  end.

(** Operands are evaluated left to right; [/] on integers raises on a zero
    divisor and otherwise yields a float, which is beyond the fragment. *)
Fixpoint eval_expr (e : expr) : verdict :=
  match e with
  | Num n => Value n
  | UAdd a => binop (eval_expr a) (Value 0) (fun x _ => Value x)
  | USub a => binop (eval_expr a) (Value 0) (fun x _ => Value (- x))
  | Add a b => binop (eval_expr a) (eval_expr b) (fun x y => Value (x + y))
  | Sub a b => binop (eval_expr a) (eval_expr b) (fun x y => Value (x - y))
  | Mult a b => binop (eval_expr a) (eval_expr b) (fun x y => Value (x * y))
  | Div a b =>
      binop (eval_expr a) (eval_expr b)
        (fun _ y => if y =? 0
                    then Throws (Py.Exn Py.ZeroDivisionError "division by zero")
                    else Beyond)
  end.

(** The interpreter's own limits (nesting depth of parentheses, digits in
    the conversion of an integer to text) are out of reach of an input of
    at most this many characters, so the fragment answers up to there. *)
Definition max_length : nat := 100.

Definition fuel : nat := 400.

Definition fragment (s : string) : verdict :=
  if (String.length s <=? max_length)%nat
  then match lex [] s with
       | Some ts =>
           match parse fuel NSum ts with
           | Some (e, []) => eval_expr e
           | _ => Beyond
           end
       | None => Beyond
       end
  else Beyond.

(** [eval(s)] followed by the formatting of the result in an f-string:
    the text of the value, or the exception raised on the way.  [rest] is
    the interpreter outside the fragment. *)
Definition eval (rest : string -> Py.outcome string) (s : string)
  : Py.outcome string :=
  match fragment s with
  | Value n => Py.Return (Py.str_int n)
  | Throws e => Py.Raise e
  | Beyond => rest s
  end.

End Calc.

(** ** The tools *)

Record Weather : Type := mkWeather {
  temp : string; condition : string; humidity : string
}.

(** The simulated weather table of [get_weather]. *)
Definition weather_data : gmap string Weather :=
  <["San Francisco" := mkWeather "68°F" "Foggy" "85%"]>
  (<["New York" := mkWeather "75°F" "Sunny" "60%"]>
  (<["London" := mkWeather "62°F" "Rainy" "90%"]> ∅)).

Definition default_weather : Weather := mkWeather "72°F" "Unknown" "70%".

(** [weather_data.get(city, default)]: only a string can equal a key. *)
Definition weather_get (city : Py.value) (dflt : Weather) : Weather :=
  match city with
  | Py.Str s => default dflt (weather_data !! s)
  | _ => dflt
  end.

(** [set("0123456789+-*/.() ")].  A character outside ASCII is encoded in
    bytes that are all outside this set, so testing bytes and testing
    characters agree. *)
Definition allowed_chars : gset ascii :=
  list_to_set (list_ascii_of_string "0123456789+-*/.() ").

(** Iterating over a value, as the generator inside [all] does. *)
Definition iterate (v : Py.value) : handler (list ascii) :=
  match v with
  | Py.Str s => ret (list_ascii_of_string s)
  | _ => raise (Py.Exn Py.TypeError
                  ("'" +:+ Py.type_name v +:+ "' object is not iterable"))
  end.

(** One line of the listing produced by [list_tasks]. *)
Definition task_line (task : Task) : string :=
  (if tk_completed task then "✅" else "⏳")
  +:+ " [" +:+ Py.str_int (tk_id task) +:+ "] " +:+ Py.str (tk_title task)
  +:+ " (created: " +:+ tk_created task +:+ ")" +:+ Py.LF.

(** The loop of [complete_task]: the first record whose id equals [task_id]
    is marked, in place, and the loop is left; [None] when the loop runs to
    its end.  The result is the marked record and the list after the
    mutation. *)
Fixpoint complete_loop (task_id : Py.value) (tasks : list Task)
  : option (Task * list Task) :=
  match tasks with
  | [] => None
  | task :: rest =>
      if Py.eqb (Py.Int (tk_id task)) task_id
      then let task' := set_completed true task in Some (task', task' :: rest)
      else match complete_loop task_id rest with
           | Some (found, rest') => Some (found, task :: rest')
           | None => None
           end
  end.

Section Tools.

(** The interpreter outside the embedded fragment of [eval]. *)
Variable eval_rest : string -> Py.outcome string.

(** [eval(expression)] and the formatting of its result. *)
Definition py_eval (expression : Py.value) : Py.outcome string :=
  match expression with
  | Py.Str s => Calc.eval eval_rest s
  | _ => Py.Raise (Py.Exn Py.TypeError
                     "eval() arg 1 must be a string, bytes or code object")
  end.

Local Open Scope handler_scope.

(** [now] is [datetime.now().strftime("%Y-%m-%d")] at the time of the
    call. *)
Definition add_task (now : string) (arguments : gmap string Py.value)
  : handler CallToolResult :=
  do title <- getitem arguments "title";
  let description := get_default arguments "description" (Py.Str "") in
  do db <- get_db;
  do new_id <- match db with
               | [] => ret 1
               | _ => do m <- lift (Py.max (map tk_id db)); ret (m + 1)
               end;
  let new_task := mkTask new_id title (Some description) false now in
  run put_db (db ++ [new_task]);
  ret (text_result ("Task '" +:+ Py.str title +:+ "' added with ID "
                    +:+ Py.str_int (tk_id new_task))).

Definition list_tasks : handler CallToolResult :=
  do db <- get_db;
  match db with
  | [] => ret (text_result "No tasks found.")
  | _ =>
      let task_list :=
        fold_left (fun task_list task => task_list +:+ task_line task)
                  db ("Current Tasks:" +:+ Py.LF) in
      ret (text_result task_list)
  end.

Definition complete_task (arguments : gmap string Py.value)
  : handler CallToolResult :=
  do task_id <- getitem arguments "task_id";
  do db <- get_db;
  match complete_loop task_id db with
  | Some (task, db') =>
      run put_db db';
      ret (text_result ("Task '" +:+ Py.str (tk_title task)
                        +:+ "' marked as completed!"))
  | None =>
      ret (text_result ("Task with ID " +:+ Py.str task_id +:+ " not found."))
  end.

Definition get_weather (arguments : gmap string Py.value)
  : handler CallToolResult :=
  do city <- getitem arguments "city";
  let weather := weather_get city default_weather in
  let result :=
    "Weather in " +:+ Py.str city +:+ ":" +:+ Py.LF
    +:+ "🌡️ Temperature: " +:+ temp weather +:+ Py.LF
    +:+ "🌤️ Condition: " +:+ condition weather +:+ Py.LF
    +:+ "💧 Humidity: " +:+ humidity weather in
  ret (text_result result).

Definition calculate (arguments : gmap string Py.value)
  : handler CallToolResult :=
  do expression <- getitem arguments "expression";
  try_except_Exception
    (do chars <- iterate expression;
     if forallb (fun c => bool_decide (c ∈ allowed_chars)) chars
     then
       do result <- lift (py_eval expression);
       ret (text_result (Py.str expression +:+ " = " +:+ result))
     else
       ret (text_result
              "Invalid expression. Only basic math operations allowed."))
    (fun e => ret (text_result ("Calculation error: " +:+ Py.message e))).

(** The tool dispatcher. *)
Definition handle_call_tool (now : string) (name : string)
    (arguments : gmap string Py.value) : handler CallToolResult :=
  if String.eqb name "add_task" then add_task now arguments
  else if String.eqb name "list_tasks" then list_tasks
  else if String.eqb name "complete_task" then complete_task arguments
  else if String.eqb name "get_weather" then get_weather arguments
  else if String.eqb name "calculate" then calculate arguments
  else raise (Py.Exn Py.ValueError ("Unknown tool: " +:+ name)).

End Tools.

(** ** Paths and the notes directory *)

Module Path.

(** [s.split(sep)]: the pieces between the separators, empty ones kept. *)
Fixpoint split_chars (sep : ascii) (cur : list ascii) (cs : list ascii)
  : list string :=
  match cs with
  | [] => [string_of_list_ascii (rev cur)]
  | c :: cs' =>
      if Ascii.eqb c sep
      then string_of_list_ascii (rev cur) :: split_chars sep [] cs'
      else split_chars sep (c :: cur) cs'
  end.

Definition split (sep : ascii) (s : string) : list string :=
  split_chars sep [] (list_ascii_of_string s).

(** [sep.join(parts)]. *)
Fixpoint join (sep : string) (parts : list string) : string :=
  match parts with
  | [] => ""
  | [p] => p
  | p :: ps => p +:+ sep +:+ join sep ps
  end.

(** The root that [posixpath.splitroot] finds: exactly two leading slashes
    are kept, one or three and more are one. *)
Definition root (s : string) : string :=
  match s with
  | String "/" (String "/" (String "/" _)) => "/"
  | String "/" (String "/" _) => "//"
  | String "/" _ => "/"
  | _ => ""
  end.

(** The components kept by [Path(s)]: empty ones and ["."] are dropped. *)
Definition tail (s : string) : list string :=
  filter (fun x => x <> "" /\ x <> ".") (split "/" s).

(** [str(Path(s))] on a POSIX system. *)
Definition str (s : string) : string :=
  let shown := root s +:+ join "/" (tail s) in
  if String.eqb shown "" then "." else shown.

(** [name.rfind(c)] over the characters of a name. *)
Fixpoint rfind (c : ascii) (cs : list ascii) : option nat :=
  match cs with
  | [] => None
  | d :: cs' =>
      match rfind c cs' with
      | Some i => Some (S i)
      | None => if Ascii.eqb d c then Some O else None
      end
  end.

(** [Path(name).stem]: the name without its last suffix; a dot that starts
    or ends the name does not begin a suffix. *)
Definition stem (name : string) : string :=
  let cs := list_ascii_of_string name in
  match rfind "." cs with
  | Some i =>
      if (0 <? i)%nat && (i <? length cs - 1)%nat
      then string_of_list_ascii (take i cs)
      else name
  | None => name
  end.

(** [s.replace(a, b)] for single characters. *)
Definition replace (a b : ascii) (s : string) : string :=
  string_of_list_ascii
    (map (fun c => if Ascii.eqb c a then b else c) (list_ascii_of_string s)).

(** [fnmatch] of a name against [*.md]: the name ends with [.md]. *)
Definition matches_md (name : string) : bool :=
  let cs := list_ascii_of_string name in
  bool_decide (drop (length cs - 3) cs = list_ascii_of_string ".md").

(** [s[n:]]. *)
Definition slice_from (n : nat) (s : string) : string :=
  string_of_list_ascii (drop n (list_ascii_of_string s)).

End Path.

(** What a call into the operating system gives: its answer, or an
    [OSError] with its message. *)
Inductive os_result (A : Type) : Type :=
| Done (a : A)
| Fails (message : string).
Arguments Done {A} a.
Arguments Fails {A} message.

(** What [read_text] gives: the decoded text of the file, an [OSError], or
    the [UnicodeDecodeError] of the decoder. *)
Inductive read_result : Type :=
| ReadText (content : string)
| ReadFails (message : string)
| ReadUndecodable (message : string).

(** The file system as the handlers see it: the names of the entries of the
    notes directory, in the order a scan yields them, and what [exists],
    [is_file] and [read_text] do on a path (as [str(Path(...))] shows it).
    [exists] and [is_file] answer [False] for a path that is not there and
    pass on the other errors of the underlying [stat]. *)
Record FileSystem : Type := mkFileSystem {
  notes_entries : list string;
  path_exists : string -> os_result bool;
  path_is_file : string -> os_result bool;
  read_text : string -> read_result
}.

Definition NOTES_DIR : string := Path.str "./notes".

(** [NOTES_DIR.glob("*.md")]: the names of the entries of the directory
    that match, in scan order. *)
Definition glob_md (fs : FileSystem) : list string :=
  filter (fun name => Path.matches_md name = true) (notes_entries fs).

(** The answer of a call into the operating system, inside a handler. *)
Definition os_call {A} (r : os_result A) : handler A :=
  match r with
  | Done a => ret a
  | Fails message => raise (Py.Exn Py.OSError message)
  end.

(** [file_path.exists() and file_path.is_file()]. *)
Definition exists_and_is_file (fs : FileSystem) (file_path : string)
  : handler bool :=
  bind (os_call (path_exists fs file_path))
       (fun found => if found then os_call (path_is_file fs file_path)
                     else ret false).

(** [file_path.read_text()]. *)
Definition read_text_of (fs : FileSystem) (file_path : string)
  : handler string :=
  match read_text fs file_path with
  | ReadText content => ret content
  | ReadFails message => raise (Py.Exn Py.OSError message)
  | ReadUndecodable message => raise (Py.Exn Py.UnicodeDecodeError message)
  end.

(** ** The resources *)

(** The classes of the protocol library validate their fields when an
    object is constructed: the object is made, or the construction raises
    [ValidationError]. *)
Inductive validated (A : Type) : Type :=
| Valid (a : A)
| Invalid (message : string).
Arguments Valid {A} a.
Arguments Invalid {A} message.

Definition construct {A} (v : validated A) : Py.outcome A :=
  match v with
  | Valid a => Py.Return a
  | Invalid message => Py.Raise (Py.Exn Py.ValidationError message)
  end.

(** A resource as listed; [uri] is the text of its URL. *)
Record Resource : Type := mkResource {
  uri : string; name : string; res_description : string; mimeType : string
}.

Record ReadResourceResult : Type :=
  mkReadResourceResult { contents : list TextContent }.

Section Resources.

(** The URL type of the [uri] field: the text of the URL that a string is
    validated and normalised to, or its rejection. *)
Variable any_url : string -> validated string.

(** The validation of [ReadResourceResult(contents=...)]. *)
Variable check_contents : list TextContent -> validated ReadResourceResult.

(** [json.dumps(_, indent=2)] of the task list, and of the system
    information gathered at the time of the call; gathering it asks the
    operating system for the working directory, which may fail. *)
Variable json_dumps_tasks : list Task -> string.
Variable system_info_json : os_result string.

(** [Resource(uri=..., name=..., description=..., mimeType=...)]. *)
Definition new_Resource (uri name description mimeType : string)
  : Py.outcome Resource :=
  construct
    match any_url uri with
    | Valid url => Valid (mkResource url name description mimeType)
    | Invalid message => Invalid message
    end.

Definition note_resource (note_name : string) : Py.outcome Resource :=
  let note_file := NOTES_DIR +:+ "/" +:+ note_name in
  new_Resource ("file://" +:+ note_file)
               ("Note: " +:+ Path.stem note_name)
               ("Learning note about "
                +:+ Path.replace "_" " " (Path.stem note_name))
               "text/markdown".

(** The loop over the notes: each resource is constructed and appended; a
    construction that raises ends the listing. *)
Fixpoint append_notes (note_names : list string) (resources : list Resource)
  : Py.outcome (list Resource) :=
  match note_names with
  | [] => Py.Return resources
  | note_name :: rest =>
      match note_resource note_name with
      | Py.Return r => append_notes rest (resources ++ [r])
      | Py.Raise e => Py.Raise e
      end
  end.

Definition handle_list_resources (fs : FileSystem)
  : Py.outcome (list Resource) :=
  let resources := [] in
  match new_Resource "tasks://database" "Task Database"
                     "Current task list with completion status"
                     "application/json" with
  | Py.Raise e => Py.Raise e
  | Py.Return r =>
      let resources := resources ++ [r] in
      match append_notes (glob_md fs) resources with
      | Py.Raise e => Py.Raise e
      | Py.Return resources =>
          match new_Resource "system://info" "System Information"
                             "Current system date and time information"
                             "application/json" with
          | Py.Raise e => Py.Raise e
          | Py.Return r => Py.Return (resources ++ [r])
          end
      end
  end.

Local Open Scope handler_scope.

(** [ReadResourceResult(contents=[TextContent(type="text", text=...)])]. *)
Definition new_ReadResourceResult (text : string)
  : handler ReadResourceResult :=
  lift (construct (check_contents [mkTextContent "text" text])).

Definition handle_read_resource (fs : FileSystem) (uri : string)
  : handler ReadResourceResult :=
  if String.eqb uri "tasks://database" then
    do db <- get_db;
    new_ReadResourceResult (json_dumps_tasks db)
  else if String.prefix "file://" uri then
    let file_path := Path.str (Path.slice_from 7 uri) in
    do found <- exists_and_is_file fs file_path;
    if found then
      do content <- read_text_of fs file_path;
      new_ReadResourceResult content
    else raise (Py.Exn Py.FileNotFoundError ("File not found: " +:+ file_path))
  else if String.eqb uri "system://info" then
    do system_info <- os_call system_info_json;
    new_ReadResourceResult system_info
  else raise (Py.Exn Py.ValueError ("Unknown resource URI: " +:+ uri)).

End Resources.

(** ** The prompts *)

Record PromptMessage : Type :=
  mkPromptMessage { role : string; msg_content : TextContent }.

Record GetPromptResult : Type := mkGetPromptResult {
  prompt_description : string;
  messages : list PromptMessage
}.

Definition user_prompt (description prompt_text : string) : GetPromptResult :=
  mkGetPromptResult description
    [mkPromptMessage "user" (mkTextContent "text" prompt_text)].

Section Prompts.

(** [json.dumps(_, indent=2)] of a list of tasks and [str.lower]. *)
Variable json_dumps_tasks : list Task -> string.
Variable str_lower : string -> string.

Local Open Scope handler_scope.

(** [v.lower()]: only strings have the method. *)
Definition lower (v : Py.value) : handler string :=
  match v with
  | Py.Str s => ret (str_lower s)
  | _ => raise (Py.Exn Py.AttributeError
                  ("'" +:+ Py.type_name v
                   +:+ "' object has no attribute 'lower'"))
  end.

Definition handle_get_prompt (name : string)
    (arguments : gmap string Py.value) : handler GetPromptResult :=
  if String.eqb name "task_summary" then
    do lowered <- lower (get_default arguments "include_completed"
                                     (Py.Str "true"));
    let include_completed := String.eqb lowered "true" in
    do db <- get_db;
    let '(tasks_to_show, prompt_text) :=
      if include_completed
      then (db, "Please provide a comprehensive summary of all tasks (completed and pending).")
      else (filter (fun task => tk_completed task = false) db,
            "Please provide a summary of pending tasks only.") in
    let task_data := json_dumps_tasks tasks_to_show in
    let prompt_text :=
      prompt_text +:+ Py.LF +:+ Py.LF +:+ "Current tasks data:" +:+ Py.LF
      +:+ task_data in
    ret (user_prompt "Task summary prompt with current task data" prompt_text)
  else if String.eqb name "learning_plan" then
    do skill_level <- getitem arguments "skill_level";
    let focus_area :=
      get_default arguments "focus_area" (Py.Str "general MCP concepts") in
    let prompt_text :=
      "Create a personalized learning plan for MCP (Model Context Protocol) based on the following:" +:+
      Py.LF +:+ Py.LF +:+ "Skill Level: " +:+ Py.str skill_level +:+ Py.LF +:+
      "Focus Area: " +:+ Py.str focus_area +:+ Py.LF +:+ Py.LF +:+
      "Please provide:" +:+ Py.LF +:+
      "1. Learning objectives appropriate for this skill level" +:+ Py.LF +:+
      "2. Recommended sequence of topics to study" +:+ Py.LF +:+
      "3. Practical exercises to reinforce learning" +:+ Py.LF +:+
      "4. Resources for further reading" +:+ Py.LF +:+
      "5. Expected timeline for mastery" +:+ Py.LF +:+ Py.LF +:+
      "Consider the current MCP server capabilities available in this playground environment." in
    ret (user_prompt ("Personalized MCP learning plan for "
                      +:+ Py.str skill_level +:+ " level")
                     prompt_text)
  else if String.eqb name "explain_concept" then
    do concept <- getitem arguments "concept";
    let prompt_text :=
      "Please provide a detailed explanation of the MCP concept: " +:+
      Py.DQUOTE +:+ Py.str concept +:+ Py.DQUOTE +:+ Py.LF +:+ Py.LF +:+
      "Include:" +:+ Py.LF +:+ "1. Definition and purpose" +:+ Py.LF +:+
      "2. How it works in the MCP architecture" +:+ Py.LF +:+
      "3. Real-world use cases and examples" +:+ Py.LF +:+
      "4. Best practices for implementation" +:+ Py.LF +:+
      "5. Common pitfalls to avoid" +:+ Py.LF +:+
      "6. How it relates to other MCP concepts" +:+ Py.LF +:+ Py.LF +:+
      "Use examples from this MCP learning server where relevant to illustrate the concepts." in
    ret (user_prompt ("Detailed explanation of MCP concept: " +:+ Py.str concept)
                     prompt_text)
  else raise (Py.Exn Py.ValueError ("Unknown prompt: " +:+ name)).

End Prompts.

(** ** Sequences of tool calls *)

(** One request to the tool dispatcher, with the date at which it runs. *)
Record call : Type := mkCall {
  call_now : string;
  call_name : string;
  call_arguments : gmap string Py.value
}.

(** Requests are served one after the other against the same store. *)
Fixpoint serve (eval_rest : string -> Py.outcome string) (calls : list call)
    (db : list Task) : list (Py.outcome CallToolResult) * list Task :=
  match calls with
  | [] => ([], db)
  | c :: cs =>
      let '(o, db1) :=
        handle_call_tool eval_rest (call_now c) (call_name c)
                         (call_arguments c) db in
      let '(os, db2) := serve eval_rest cs db1 in
      (o :: os, db2)
  end.

(** ** Notions used in the statements *)

(** [m] is the greatest element of [xs]. *)
Definition is_max (m : Z) (xs : list Z) : Prop :=
  m ∈ xs /\ forall x, x ∈ xs -> x <= m.

(** The identifier given to a new record, in the words of the data model:
    one more than the greatest identifier present, or [1] in an empty
    store. *)
Definition next_identifier (existing : list Task) (new_id : Z) : Prop :=
  (existing = [] -> new_id = 1)
  /\ (existing <> [] ->
      exists m, is_max m (map tk_id existing) /\ new_id = m + 1).

(** The answer of [add_task] that reports the record [task]. *)
Definition added_answer (task : Task) : Py.outcome CallToolResult :=
  Py.Return (text_result ("Task '" +:+ Py.str (tk_title task)
                          +:+ "' added with ID " +:+ Py.str_int (tk_id task))).

(** A request for [add_task] that carries the title the schema requires. *)
Definition well_formed_add (c : call) : Prop :=
  call_name c = "add_task" /\ is_Some (call_arguments c !! "title").

(** An interpreter that finds a syntax error in whatever the fragment leaves
    to it. *)
Definition no_rest : string -> Py.outcome string :=
  fun _ => Py.Raise (Py.Exn Py.SyntaxError "invalid syntax").

(** Two [add_task] requests, on two consecutive days. *)
Definition two_adds : list call :=
  [ mkCall "2025-08-16" "add_task" (<["title" := Py.Str "Write tests"]> ∅);
    mkCall "2025-08-17" "add_task"
           (<["title" := Py.Str "Ship"]> (<["description" := Py.Str "v1"]> ∅)) ].

(** The names the dispatcher knows. *)
Definition known_tools : list string :=
  ["add_task"; "list_tasks"; "complete_task"; "get_weather"; "calculate"].

(** The lines of a listing, one after the other. *)
Definition concat_lines (lines : list string) : string :=
  foldr String.append "" lines.

(** The report of [get_weather] for a city and its weather. *)
Definition weather_text (city : string) (weather : Weather) : string :=
  "Weather in " +:+ city +:+ ":" +:+ Py.LF
  +:+ "🌡️ Temperature: " +:+ temp weather +:+ Py.LF
  +:+ "🌤️ Condition: " +:+ condition weather +:+ Py.LF
  +:+ "💧 Humidity: " +:+ humidity weather.

(** A record of [db] is still at its place in [db'], with the same
    identifier, title, description and date, and completed if it was. *)
Definition persists (db db' : list Task) : Prop :=
  forall i task, db !! i = Some task ->
    exists task', db' !! i = Some task'
      /\ tk_id task' = tk_id task
      /\ tk_title task' = tk_title task
      /\ tk_description task' = tk_description task
      /\ tk_created task' = tk_created task
      /\ (tk_completed task = true -> tk_completed task' = true).

(** What one tool call can do to the store. *)
Inductive store_step (name : string) (db : list Task) : list Task -> Prop :=
| step_unchanged : store_step name db db
| step_added task :
    name = "add_task" -> tk_completed task = false ->
    store_step name db (db ++ [task])
| step_completed i task :
    name = "complete_task" -> db !! i = Some task ->
    store_step name db (<[i := set_completed true task]> db).

(** The characters [calculate] lets through: the digits, the four operators,
    the dot, the parentheses and the space. *)
Definition allowed (c : ascii) : Prop :=
  Calc.is_digit c = true \/ c ∈ list_ascii_of_string "+-*/.() ".

(** The test [all(c in allowed_chars for c in expression)] on a string. *)
Definition all_allowed (s : string) : bool :=
  forallb (fun c => bool_decide (c ∈ allowed_chars)) (list_ascii_of_string s).

(** An interpreter for the rest that would run the import, to see that
    [calculate] never asks it. *)
Definition obliging_rest : string -> Py.outcome string :=
  fun s => Py.Return "<module 'os'>".

(** The content of the file that a path names among the notes [files]. *)
Fixpoint note_content (file_path : string) (files : list (string * string))
  : option string :=
  match files with
  | [] => None
  | (note_name, content) :: rest =>
      if String.eqb file_path (NOTES_DIR +:+ "/" +:+ note_name)
      then Some content
      else note_content file_path rest
  end.

(** A file system that holds the given notes, as regular files in the notes
    directory, and nothing else. *)
Definition notes_with (files : list (string * string)) : FileSystem :=
  mkFileSystem
    (map fst files)
    (fun file_path => Done (bool_decide (is_Some (note_content file_path files))))
    (fun file_path => Done (bool_decide (is_Some (note_content file_path files))))
    (fun file_path =>
       match note_content file_path files with
       | Some content => ReadText content
       | None => ReadFails "[Errno 2] No such file or directory"
       end).

(** A file system without any file. *)
Definition no_files : FileSystem := notes_with [].

(** A URL type that accepts every text as it is written, and a result type
    that accepts every contents. *)
Definition plain_url : string -> validated string := fun text => Valid text.

Definition any_contents : list TextContent -> validated ReadResourceResult :=
  fun contents => Valid (mkReadResourceResult contents).



(** The path names an existing regular file: both tests answer yes. *)
Definition names_regular_file (fs : FileSystem) (file_path : string) : Prop :=
  path_exists fs file_path = Done true /\ path_is_file fs file_path = Done true.


(** The notes directory with the two seed notes, and with one more entry. *)
Definition seeded : FileSystem :=
  notes_with [("mcp_basics.md", "# MCP Basics");
              ("learning_goals.md", "# Learning Goals")].


(** ** The capability listings *)

(** The JSON values that occur in the input schemas.  A dictionary keeps its
    items in the order they are written. *)
#[local] Unset Elimination Schemes.
Inductive json : Type :=
| JStr (s : string)
| JBool (b : bool)
| JList (items : list json)
| JDict (items : list (string * json)).
#[local] Set Elimination Schemes.

(** [d.get(k)] on a dictionary written as a list of items. *)
Fixpoint items_get (k : string) (items : list (string * json)) : option json :=
  match items with
  | [] => None
  | (k', v) :: rest => if String.eqb k' k then Some v else items_get k rest
  end.

Definition json_get (k : string) (j : json) : option json :=
  match j with
  | JDict items => items_get k items
  | _ => None
  end.

Record Tool : Type := mkTool {
  tool_name : string;
  tool_description : string;
  inputSchema : json
}.

(** The schema of one string or integer property. *)
Definition property (type_name description : string) : json :=
  JDict [("type", JStr type_name); ("description", JStr description)].

Definition handle_list_tools : list Tool :=
  [ mkTool "add_task" "Add a new task to the task list"
      (JDict [("type", JStr "object");
              ("properties",
               JDict [("title", property "string" "The task title");
                      ("description",
                       property "string" "Optional task description")]);
              ("required", JList [JStr "title"])]);
    mkTool "list_tasks" "List all tasks with their status"
      (JDict [("type", JStr "object");
              ("properties", JDict []);
              ("additionalProperties", JBool false)]);
    mkTool "complete_task" "Mark a task as completed"
      (JDict [("type", JStr "object");
              ("properties",
               JDict [("task_id",
                       property "integer" "The ID of the task to complete")]);
              ("required", JList [JStr "task_id"])]);
    mkTool "get_weather" "Get current weather information (simulated)"
      (JDict [("type", JStr "object");
              ("properties",
               JDict [("city", property "string" "The city name")]);
              ("required", JList [JStr "city"])]);
    mkTool "calculate" "Perform basic mathematical calculations"
      (JDict [("type", JStr "object");
              ("properties",
               JDict [("expression",
                       property "string" "Mathematical expression to evaluate")]);
              ("required", JList [JStr "expression"])]) ].

Record PromptArgument : Type := mkPromptArgument {
  arg_name : string;
  arg_description : string;
  required : bool
}.

Record Prompt : Type := mkPrompt {
  prompt_name : string;
  prompt_summary : string;
  prompt_arguments : list PromptArgument
}.

Definition handle_list_prompts : list Prompt :=
  [ mkPrompt "task_summary" "Generate a summary of current tasks"
      [mkPromptArgument "include_completed"
         "Whether to include completed tasks" false];
    mkPrompt "learning_plan" "Create a personalized MCP learning plan"
      [mkPromptArgument "skill_level"
         "Current skill level (beginner, intermediate, advanced)" true;
       mkPromptArgument "focus_area"
         "Specific area to focus on (tools, resources, prompts, etc.)" false];
    mkPrompt "explain_concept" "Explain an MCP concept in detail"
      [mkPromptArgument "concept"
         "The MCP concept to explain (tools, resources, prompts, servers, clients)"
         true] ].

(** The names a schema lists under ["required"], and the names it declares
    under ["properties"]. *)
Definition required_keys (schema : json) : list string :=
  match json_get "required" schema with
  | Some (JList items) =>
      omap (fun j => match j with JStr s => Some s | _ => None end) items
  | _ => []
  end.

Definition declared_keys (schema : json) : list string :=
  match json_get "properties" schema with
  | Some (JDict items) => map fst items
  | _ => []
  end.

(** The arguments of a prompt that its listing marks as required. *)
Definition required_arguments (p : Prompt) : list string :=
  map arg_name (filter (fun a => required a = true) (prompt_arguments p)).

(** ** Properties of the store *)

Lemma fold_max_spec (rest : list Z) (x : Z) :
  let m := fold_left (fun m y => if y >? m then y else m) rest x in
  (m = x \/ m ∈ rest) /\ x <= m /\ forall y, y ∈ rest -> y <= m.
Proof.
  revert x. induction rest as [|y rest IH]; intros x; simpl.
  - split; [by left|]. split; [lia|]. intros y Hy. by apply elem_of_nil in Hy.
  - destruct (IH (if y >? x then y else x)) as (Hin & Hle & Hall).
    destruct (Z.gtb_spec y x) as [Hgt|Hngt].
    + split; [right; destruct Hin as [->|Hin]; [left|by right]|].
      split; [lia|]. intros z [->|Hz]%elem_of_cons; [done|by apply Hall].
    + split; [destruct Hin as [->|Hin]; [by left|right; by right]|].
      split; [done|]. intros z [->|Hz]%elem_of_cons; [lia|by apply Hall].
Qed.

Lemma py_max_spec (xs : list Z) :
  xs <> [] -> exists m, Py.max xs = Py.Return m /\ is_max m xs.
Proof.
  destruct xs as [|x rest]; [done|]. intros _. simpl.
  eexists; split; [reflexivity|].
  destruct (fold_max_spec rest x) as (Hin & Hle & Hall). split.
  - destruct Hin as [->|Hin]; [left|by right].
  - intros z [->|Hz]%elem_of_cons; [done|by apply Hall].
Qed.

(** The record and the answer that one [add_task] call produces. *)
Lemma add_task_spec (now : string) (arguments : gmap string Py.value)
    (title : Py.value) (db : list Task) :
  arguments !! "title" = Some title ->
  exists new_id : Z,
    add_task now arguments db
    = (Py.Return (text_result ("Task '" +:+ Py.str title +:+ "' added with ID "
                               +:+ Py.str_int new_id)),
       db ++ [mkTask new_id title
                (Some (get_default arguments "description" (Py.Str "")))
                false now])
    /\ (db = [] -> new_id = 1)
    /\ (db <> [] -> exists m, is_max m (map tk_id db) /\ new_id = m + 1).
Proof.
  intros Htitle. unfold add_task, bind, getitem. rewrite Htitle. simpl.
  destruct db as [|t db'].
  - exists 1. simpl. split; [done|]. split; [done|]. by intros [].
  - destruct (py_max_spec (map tk_id (t :: db'))) as (m & Hm & Hmax); [done|].
    exists (m + 1). unfold lift, bind. rewrite Hm. simpl.
    split; [done|]. split; [done|]. intros _. by exists m.
Qed.

(** What the dispatcher does with a well-formed [add_task] request. *)
Lemma handle_add_task (eval_rest : string -> Py.outcome string)
    (now : string) (arguments : gmap string Py.value) (db : list Task) :
  handle_call_tool eval_rest now "add_task" arguments db
  = add_task now arguments db.
Proof. reflexivity. Qed.

Lemma next_identifier_above (existing : list Task) (new_id : Z) (old : Task) :
  next_identifier existing new_id -> old ∈ existing -> tk_id old < new_id.
Proof.
  intros [_ Hne] Hold.
  destruct Hne as (m & [_ Hmax] & ->); [by intros ->; apply elem_of_nil in Hold|].
  assert (tk_id old <= m); [|lia].
  apply Hmax, list_elem_of_fmap. by exists old.
Qed.

Lemma serve_adds (eval_rest : string -> Py.outcome string)
    (calls : list call) (db : list Task) :
  Forall well_formed_add calls ->
  exists new : list Task,
    (serve eval_rest calls db).2 = db ++ new
    /\ length new = length calls
    /\ forall i task, new !! i = Some task ->
         next_identifier (db ++ take i new) (tk_id task)
         /\ (serve eval_rest calls db).1 !! i = Some (added_answer task).
Proof.
  intros Hwf. revert db.
  induction Hwf as [|c cs [Hname [title Htitle]] _ IH]; intros db.
  - exists []. simpl. rewrite app_nil_r. repeat split; try done.
  - simpl. rewrite Hname, handle_add_task.
    destruct (add_task_spec (call_now c) _ title db Htitle)
      as (new_id & -> & Hempty & Hmax).
    set (t := mkTask new_id title _ false _).
    destruct (IH (db ++ [t])) as (new & Hdb & Hlen & Hnew).
    destruct (serve eval_rest cs (db ++ [t])) as [os db2] eqn:Hserve.
    simpl in *. exists (t :: new). subst db2.
    split; [by rewrite <- app_assoc|]. split; [simpl; congruence|].
    intros [|i] task Hi; simpl in *.
    + injection Hi as <-. rewrite app_nil_r. by repeat split.
    + destruct (Hnew i task Hi) as [Hnext Hout].
      split; [|done]. by rewrite <- app_assoc in Hnext.
Qed.

(** C1: in every sequence of [add_task] calls, from any store, each new
    identifier is one more than the greatest identifier in the store at that
    point (and [1] in an empty store); the identifiers assigned along the
    sequence are strictly increasing, each is greater than every identifier
    already in the store, and a store whose identifiers are pairwise
    distinct stays so. *)
Theorem add_task_ids_increasing_unique
    (eval_rest : string -> Py.outcome string)
    (calls : list call) (db : list Task) :
  Forall well_formed_add calls ->
  exists new : list Task,
    (serve eval_rest calls db).2 = db ++ new
    /\ length new = length calls
    /\ (forall i task, new !! i = Some task ->
          let existing := db ++ take i new in
          (existing = [] -> tk_id task = 1)
          /\ (existing <> [] ->
              exists m, is_max m (map tk_id existing) /\ tk_id task = m + 1)
          /\ (forall old, old ∈ existing -> tk_id old < tk_id task)
          /\ (serve eval_rest calls db).1 !! i = Some (added_answer task))
    /\ (forall i j a b, (i < j)%nat ->
          new !! i = Some a -> new !! j = Some b -> tk_id a < tk_id b)
    /\ (NoDup (map tk_id db) -> NoDup (map tk_id (db ++ new))).
Proof.
  intros Hwf.
  destruct (serve_adds eval_rest calls db Hwf) as (new & Hdb & Hlen & Hnew).
  exists new. split; [done|]. split; [done|].
  assert (Habove : forall i task, new !! i = Some task ->
            forall old, old ∈ db ++ take i new -> tk_id old < tk_id task).
  { intros i task Hi old Hold.
    destruct (Hnew i task Hi) as [Hnext _].
    by eapply next_identifier_above. }
  split; [|split].
  - intros i task Hi. destruct (Hnew i task Hi) as [[Hempty Hmax] Hout].
    repeat split; try done. by apply Habove.
  - intros i j a b Hij Ha Hb. apply (Habove j b Hb).
    apply elem_of_app. right. apply list_elem_of_lookup. exists i.
    by rewrite lookup_take_lt.
  - intros Hnodup.
    assert (Hk : forall k, (k <= length new)%nat ->
              NoDup (map tk_id (db ++ take k new))).
    { induction k as [|k IHk]; intros Hle.
      - by rewrite take_0, app_nil_r.
      - destruct (lookup_lt_is_Some_2 new k) as [task Hk]; [lia|].
        rewrite (take_S_r _ _ _ Hk), app_assoc, map_app. simpl.
        apply NoDup_app. split; [apply IHk; lia|]. split; [|apply NoDup_singleton].
        intros x Hx ->%list_elem_of_singleton.
        apply list_elem_of_fmap in Hx as (old & Hid & Hold).
        pose proof (Habove k task Hk old Hold). lia. }
    specialize (Hk (length new) (le_n _)). by rewrite firstn_all in Hk.
Qed.

Lemma two_adds_well_formed : Forall well_formed_add two_adds.
Proof.
  repeat constructor; simpl; eexists; vm_compute; reflexivity.
Defined.

Lemma add_task_ids_increasing_unique_witness :
  Forall well_formed_add two_adds
  /\ exists new : list Task,
       (serve no_rest two_adds TASKS_DB).2 = TASKS_DB ++ new
       /\ length new = 2%nat.
Proof.
  split; [exact two_adds_well_formed|].
  destruct (add_task_ids_increasing_unique no_rest two_adds TASKS_DB
              two_adds_well_formed) as (new & Hdb & Hlen & _).
  exists new. split; [exact Hdb | exact Hlen].
Defined.

(** ** Completing a task *)

Lemma complete_loop_None (task_id : Py.value) (db : list Task) :
  (forall task, task ∈ db -> Py.eqb (Py.Int (tk_id task)) task_id = false) ->
  complete_loop task_id db = None.
Proof.
  induction db as [|task db IH]; intros Hno; cbn [complete_loop]; [done|].
  rewrite (Hno task); [|by left].
  rewrite IH; [done|]. intros t Ht. apply Hno. by right.
Qed.

(** The loop marks the first record whose identifier equals [task_id], at
    its place, and touches nothing else. *)
Lemma complete_loop_Some (task_id : Py.value) (db db' : list Task)
    (found : Task) :
  complete_loop task_id db = Some (found, db') ->
  exists i task,
    db !! i = Some task
    /\ Py.eqb (Py.Int (tk_id task)) task_id = true
    /\ (forall j other, (j < i)%nat -> db !! j = Some other ->
          Py.eqb (Py.Int (tk_id other)) task_id = false)
    /\ found = set_completed true task
    /\ db' = <[i := set_completed true task]> db.
Proof.
  revert db'.
  induction db as [|task db IH]; intros db' Hloop; cbn [complete_loop] in Hloop;
    [done|].
  destruct (Py.eqb (Py.Int (tk_id task)) task_id) eqn:Heq.
  - injection Hloop as <- <-. exists O, task. repeat split; try done.
    intros j other Hj. lia.
  - destruct (complete_loop task_id db) as [[found' rest']|] eqn:Hrest; [|done].
    injection Hloop as <- <-.
    destruct (IH rest' eq_refl) as (i & t & Hi & Hmatch & Hfirst & -> & ->).
    exists (S i), t. repeat split; try done.
    intros [|j] other Hj Hother; simpl in Hother.
    + by injection Hother as <-.
    + apply (Hfirst j); [lia|done].
Qed.

(** The answer of [complete_task] when its loop finds nothing. *)
Lemma complete_task_not_found (arguments : gmap string Py.value)
    (task_id : Py.value) (db : list Task) :
  arguments !! "task_id" = Some task_id ->
  complete_loop task_id db = None ->
  complete_task arguments db
  = (Py.Return (text_result ("Task with ID " +:+ Py.str task_id
                             +:+ " not found.")),
     db).
Proof.
  intros Harg Hloop. unfold complete_task, bind, getitem.
  rewrite Harg. cbn [ret get_db]. by rewrite Hloop.
Qed.

(** C2: [complete_task] with a [task_id] that equals the identifier of no
    record leaves the store as it is and returns a normal result whose text
    names that [task_id] as not found. *)
Theorem complete_task_missing_id
    (eval_rest : string -> Py.outcome string) (now : string)
    (arguments : gmap string Py.value) (task_id : Py.value) (db : list Task) :
  arguments !! "task_id" = Some task_id ->
  (forall task, task ∈ db -> Py.eqb (Py.Int (tk_id task)) task_id = false) ->
  handle_call_tool eval_rest now "complete_task" arguments db
  = (Py.Return (text_result ("Task with ID " +:+ Py.str task_id
                             +:+ " not found.")),
     db).
Proof.
  intros Harg Hno.
  change (handle_call_tool eval_rest now "complete_task" arguments db)
    with (complete_task arguments db).
  apply complete_task_not_found; [done|]. by apply complete_loop_None.
Qed.

Lemma complete_task_missing_id_witness :
  handle_call_tool no_rest "2025-08-16" "complete_task"
                   (<["task_id" := Py.Int 7]> ∅) TASKS_DB
  = (Py.Return (text_result "Task with ID 7 not found."), TASKS_DB).
Proof.
  apply (complete_task_missing_id no_rest "2025-08-16"
           (<["task_id" := Py.Int 7]> ∅) (Py.Int 7) TASKS_DB).
  - vm_compute. reflexivity.
  - intros task Htask. unfold TASKS_DB in Htask.
    repeat (apply elem_of_cons in Htask as [->|Htask]; [reflexivity|]).
    by apply elem_of_nil in Htask.
Defined.

(** ** Unknown tools *)

(** C6: a tool name outside the five known ones makes the dispatcher raise
    [ValueError] naming the tool, with the store untouched; a known tool that
    does not find its task, such as [complete_task] on a missing identifier,
    returns normally instead, so the two outcomes differ. *)
Theorem unknown_tool_raises
    (eval_rest : string -> Py.outcome string) (now : string) (name : string)
    (arguments : gmap string Py.value) (db : list Task) :
  name ∉ known_tools ->
  handle_call_tool eval_rest now name arguments db
  = (Py.Raise (Py.Exn Py.ValueError ("Unknown tool: " +:+ name)), db)
  /\ forall (arguments' : gmap string Py.value) (task_id : Py.value),
       arguments' !! "task_id" = Some task_id ->
       (forall task, task ∈ db ->
          Py.eqb (Py.Int (tk_id task)) task_id = false) ->
       exists result,
         handle_call_tool eval_rest now "complete_task" arguments' db
         = (Py.Return result, db)
         /\ handle_call_tool eval_rest now "complete_task" arguments' db
            <> handle_call_tool eval_rest now name arguments db.
Proof.
  intros Hname.
  assert (Hraise : handle_call_tool eval_rest now name arguments db
            = (Py.Raise (Py.Exn Py.ValueError ("Unknown tool: " +:+ name)), db)).
  { unfold handle_call_tool, known_tools in *.
    repeat match goal with
           | |- context [String.eqb name ?tool] =>
               destruct (String.eqb_spec name tool) as [->|_];
               [exfalso; apply Hname; set_solver|]
           end.
    reflexivity. }
  split; [exact Hraise|].
  intros arguments' task_id Harg Hno.
  assert (Hfound :
    handle_call_tool eval_rest now "complete_task" arguments' db
    = (Py.Return (text_result ("Task with ID " +:+ Py.str task_id
                               +:+ " not found.")), db)).
  { change (handle_call_tool eval_rest now "complete_task" arguments' db)
      with (complete_task arguments' db).
    apply complete_task_not_found; [done|]. by apply complete_loop_None. }
  eexists. split; [exact Hfound|].
  rewrite Hraise, Hfound. congruence.
Qed.

Lemma unknown_tool_raises_witness :
  handle_call_tool no_rest "2025-08-16" "delete_task" ∅ TASKS_DB
  = (Py.Raise (Py.Exn Py.ValueError "Unknown tool: delete_task"), TASKS_DB).
Proof.
  apply (unknown_tool_raises no_rest "2025-08-16" "delete_task" ∅ TASKS_DB).
  unfold known_tools. intros Hin.
  repeat (apply elem_of_cons in Hin as [Hin|Hin]; [discriminate Hin|]).
  by apply elem_of_nil in Hin.
Defined.

(** ** Listing the tasks *)

Lemma append_assoc (s1 s2 s3 : string) :
  (s1 +:+ s2) +:+ s3 = s1 +:+ (s2 +:+ s3).
Proof.
  induction s1 as [|c s1 IH]; [reflexivity|]. exact (f_equal (String c) IH).
Qed.

Lemma append_nil_r (s : string) : s +:+ "" = s.
Proof.
  induction s as [|c s IH]; [reflexivity|]. exact (f_equal (String c) IH).
Qed.

Lemma fold_left_lines (tasks : list Task) (start : string) :
  fold_left (fun task_list task => task_list +:+ task_line task) tasks start
  = start +:+ concat_lines (map task_line tasks).
Proof.
  revert start. unfold concat_lines.
  induction tasks as [|task tasks IH]; intros start; cbn [fold_left map foldr].
  - by rewrite append_nil_r.
  - by rewrite IH, append_assoc.
Qed.

(** C8: [list_tasks] on an empty store answers with the message
    [No tasks found.]; on a non-empty store it answers with the heading
    followed by one line per record, in the order of the store, and each line
    starts with the status marker of its record ([✅] when completed, [⏳]
    when not), followed by the identifier in brackets and the title. *)
Theorem list_tasks_renders_store
    (eval_rest : string -> Py.outcome string) (now : string)
    (arguments : gmap string Py.value) :
  handle_call_tool eval_rest now "list_tasks" arguments []
  = (Py.Return (text_result "No tasks found."), [])
  /\ (forall db : list Task, db <> [] ->
        handle_call_tool eval_rest now "list_tasks" arguments db
        = (Py.Return (text_result ("Current Tasks:" +:+ Py.LF
                                   +:+ concat_lines (map task_line db))),
           db))
  /\ (forall task : Task,
        exists marker rest : string,
          task_line task
          = marker +:+ " [" +:+ Py.str_int (tk_id task) +:+ "] "
            +:+ Py.str (tk_title task) +:+ rest
          /\ (tk_completed task = true -> marker = "✅")
          /\ (tk_completed task = false -> marker = "⏳"))
  /\ "✅" <> "⏳".
Proof.
  split; [reflexivity|]. split; [|split].
  - intros db Hdb.
    change (handle_call_tool eval_rest now "list_tasks" arguments db)
      with (list_tasks db).
    destruct db as [|task db]; [done|].
    unfold list_tasks, bind, get_db, ret.
    by rewrite fold_left_lines.
  - intros task. eexists _, _. split; [reflexivity|].
    destruct (tk_completed task); by split.
  - discriminate.
Qed.

(** ** The weather *)

(** C10: for every city string [get_weather] returns a normal text result
    and leaves the store alone; for a city other than San Francisco, New
    York and London the text reports 72°F, Unknown and 70%. *)
Theorem get_weather_total
    (eval_rest : string -> Py.outcome string) (now : string)
    (arguments : gmap string Py.value) (city : string) (db : list Task) :
  arguments !! "city" = Some (Py.Str city) ->
  (exists weather : Weather,
     handle_call_tool eval_rest now "get_weather" arguments db
     = (Py.Return (text_result (weather_text city weather)), db))
  /\ (city ∉ ["San Francisco"; "New York"; "London"] ->
      handle_call_tool eval_rest now "get_weather" arguments db
      = (Py.Return (text_result
           ("Weather in " +:+ city +:+ ":" +:+ Py.LF
            +:+ "🌡️ Temperature: 72°F" +:+ Py.LF
            +:+ "🌤️ Condition: Unknown" +:+ Py.LF
            +:+ "💧 Humidity: 70%")),
         db)).
Proof.
  intros Hcity.
  change (handle_call_tool eval_rest now "get_weather" arguments db)
    with (get_weather arguments db).
  unfold get_weather, bind, getitem. rewrite Hcity. cbn [ret Py.str].
  split; [by eexists|].
  intros Hother. unfold weather_get, weather_data.
  rewrite !lookup_insert_ne, lookup_empty by set_solver.
  reflexivity.
Qed.

Lemma get_weather_total_witness :
  handle_call_tool no_rest "2025-08-16" "get_weather"
                   (<["city" := Py.Str "Paris"]> ∅) TASKS_DB
  = (Py.Return (text_result
       ("Weather in Paris:" +:+ Py.LF
        +:+ "🌡️ Temperature: 72°F" +:+ Py.LF
        +:+ "🌤️ Condition: Unknown" +:+ Py.LF
        +:+ "💧 Humidity: 70%")),
     TASKS_DB).
Proof.
  refine (proj2 (get_weather_total no_rest "2025-08-16"
                   (<["city" := Py.Str "Paris"]> ∅) "Paris" TASKS_DB _) _).
  - vm_compute. reflexivity.
  - intros Hin.
    repeat (apply elem_of_cons in Hin as [Hin|Hin]; [discriminate Hin|]).
    by apply elem_of_nil in Hin.
Defined.

(** ** The life of a task *)

Lemma persists_refl (db : list Task) : persists db db.
Proof. intros i task Hi. exists task. by repeat split. Qed.

Lemma persists_trans (db1 db2 db3 : list Task) :
  persists db1 db2 -> persists db2 db3 -> persists db1 db3.
Proof.
  intros H12 H23 i task Hi.
  destruct (H12 i task Hi) as (t2 & Hi2 & Hid & Htitle & Hdesc & Hdate & Hdone).
  destruct (H23 i t2 Hi2) as (t3 & Hi3 & Hid' & Htitle' & Hdesc' & Hdate' & Hdone').
  exists t3. repeat split; try congruence. auto.
Qed.

Lemma store_step_persists (name : string) (db db' : list Task) :
  store_step name db db' -> persists db db'.
Proof.
  intros [|task _ _|i task _ Hi]; [apply persists_refl| |].
  - intros j t Hj. exists t. split; [by apply lookup_app_l_Some|by repeat split].
  - intros j t Hj. destruct (decide (i = j)) as [->|Hne].
    + exists (set_completed true task).
      rewrite list_lookup_insert_eq by (by eapply lookup_lt_Some).
      assert (t = task) as -> by congruence. by repeat split.
    + exists t. rewrite list_lookup_insert_ne by done. by repeat split.
Qed.

Lemma calculate_keeps_store (eval_rest : string -> Py.outcome string)
    (arguments : gmap string Py.value) (db : list Task) :
  (calculate eval_rest arguments db).2 = db.
Proof.
  unfold calculate, bind, getitem, try_except_Exception, iterate, lift, ret,
    raise.
  repeat (case_match; simplify_eq/=; try done).
Qed.

Lemma handle_call_tool_store_step (eval_rest : string -> Py.outcome string)
    (now name : string) (arguments : gmap string Py.value) (db : list Task) :
  store_step name db (handle_call_tool eval_rest now name arguments db).2.
Proof.
  unfold handle_call_tool.
  destruct (String.eqb_spec name "add_task") as [->|_].
  { destruct (arguments !! "title") as [title|] eqn:Htitle.
    - destruct (add_task_spec now arguments title db Htitle) as (new_id & -> & _).
      by apply step_added.
    - unfold add_task, bind, getitem. rewrite Htitle. apply step_unchanged. }
  destruct (String.eqb_spec name "list_tasks") as [->|_].
  { destruct db; apply step_unchanged. }
  destruct (String.eqb_spec name "complete_task") as [->|_].
  { unfold complete_task, bind, getitem.
    destruct (arguments !! "task_id") as [task_id|]; [|apply step_unchanged].
    cbn [ret get_db].
    destruct (complete_loop task_id db) as [[found db']|] eqn:Hloop;
      [|apply step_unchanged].
    destruct (complete_loop_Some _ _ _ _ Hloop) as (i & task & Hi & _ & _ & _ & ->).
    by apply step_completed. }
  destruct (String.eqb_spec name "get_weather") as [->|_].
  { unfold get_weather, bind, getitem.
    destruct (arguments !! "city"); apply step_unchanged. }
  destruct (String.eqb_spec name "calculate") as [->|_].
  { rewrite calculate_keeps_store. apply step_unchanged. }
  apply step_unchanged.
Qed.

(** Constructing the result object returns it or raises [ValidationError];
    the store is not involved. *)
Lemma new_ReadResourceResult_cases
    (check_contents : list TextContent -> validated ReadResourceResult)
    (text : string) (db : list Task) :
  (exists result,
     new_ReadResourceResult check_contents text db = (Py.Return result, db))
  \/ (exists message,
        new_ReadResourceResult check_contents text db
        = (Py.Raise (Py.Exn Py.ValidationError message), db)).
Proof.
  unfold new_ReadResourceResult, lift, construct.
  destruct (check_contents _) as [result|message]; [left|right]; by eexists.
Qed.

(** The test of the path answers, or raises the [OSError] of [exists] or of
    [is_file]. *)
Lemma exists_and_is_file_cases (fs : FileSystem) (file_path : string)
    (db : list Task) :
  (exists found, exists_and_is_file fs file_path db = (Py.Return found, db))
  \/ (exists message,
        exists_and_is_file fs file_path db
        = (Py.Raise (Py.Exn Py.OSError message), db)).
Proof.
  unfold exists_and_is_file, bind, os_call.
  destruct (path_exists fs file_path) as [[|]|message]; cbn [ret raise].
  - destruct (path_is_file fs file_path) as [found|message];
      [left|right]; by eexists.
  - left. by eexists.
  - right. by eexists.
Qed.

(** What reading a resource can end in: for a URI that the handler knows,
    a result or an exception of one of four classes; for any other URI the
    [ValueError] that names it.  The store is as it was. *)
Lemma handle_read_resource_cases
    (check_contents : list TextContent -> validated ReadResourceResult)
    (json_dumps_tasks : list Task -> string)
    (system_info_json : os_result string)
    (fs : FileSystem) (uri : string) (db : list Task) :
  exists outcome,
    handle_read_resource check_contents json_dumps_tasks system_info_json
                         fs uri db = (outcome, db)
    /\ (((uri = "tasks://database" \/ uri = "system://info"
          \/ String.prefix "file://" uri = true)
         /\ ((exists result, outcome = Py.Return result)
             \/ (exists e, outcome = Py.Raise e
                           /\ Py.class e ∈ [Py.ValidationError; Py.OSError;
                                            Py.UnicodeDecodeError;
                                            Py.FileNotFoundError])))
        \/ (uri <> "tasks://database" /\ uri <> "system://info"
            /\ String.prefix "file://" uri = false
            /\ outcome
               = Py.Raise (Py.Exn Py.ValueError
                             ("Unknown resource URI: " +:+ uri)))).
Proof.
  assert (Hnew : forall text,
    exists outcome,
      new_ReadResourceResult check_contents text db = (outcome, db)
      /\ ((exists result, outcome = Py.Return result)
          \/ (exists e, outcome = Py.Raise e
                        /\ Py.class e ∈ [Py.ValidationError; Py.OSError;
                                         Py.UnicodeDecodeError;
                                         Py.FileNotFoundError]))).
  { intros text.
    destruct (new_ReadResourceResult_cases check_contents text db)
      as [[r ->]|[m ->]]; eexists; (split; [reflexivity|]).
    - left. by eexists.
    - right. eexists. split; [reflexivity|]. apply list_elem_of_here. }
  unfold handle_read_resource.
  destruct (String.eqb_spec uri "tasks://database") as [->|Htasks].
  { unfold bind, get_db.
    destruct (Hnew (json_dumps_tasks db)) as (outcome & -> & Hout).
    exists outcome. split; [done|]. left. split; [by left|done]. }
  destruct (String.prefix "file://" uri) eqn:Hprefix.
  { assert (Hknown : uri = "tasks://database" \/ uri = "system://info"
                     \/ true = true) by (right; by right).
    unfold bind at 1.
    destruct (exists_and_is_file_cases fs (Path.str (Path.slice_from 7 uri)) db)
      as [[found ->]|[m ->]].
    - destruct found.
      + unfold bind, read_text_of.
        destruct (read_text fs _) as [content|m|m]; cbn [ret raise].
        * destruct (Hnew content) as (outcome & -> & Hout).
          exists outcome. split; [done|]. left. by split.
        * eexists. split; [reflexivity|]. left. split; [done|]. right.
          eexists. split; [reflexivity|].
          apply list_elem_of_further, list_elem_of_here.
        * eexists. split; [reflexivity|]. left. split; [done|]. right.
          eexists. split; [reflexivity|].
          do 2 apply list_elem_of_further. apply list_elem_of_here.
      + eexists. split; [reflexivity|]. left. split; [done|]. right.
        eexists. split; [reflexivity|].
        do 3 apply list_elem_of_further. apply list_elem_of_here.
    - eexists. split; [reflexivity|]. left. split; [done|]. right.
      eexists. split; [reflexivity|].
      apply list_elem_of_further, list_elem_of_here. }
  destruct (String.eqb_spec uri "system://info") as [->|Hsystem].
  { unfold bind, os_call. destruct system_info_json as [system_info|m];
      cbn [ret raise].
    - destruct (Hnew system_info) as (outcome & -> & Hout).
      exists outcome. split; [done|]. left. split; [right; by left|done].
    - eexists. split; [reflexivity|]. left. split; [right; by left|]. right.
      eexists. split; [reflexivity|].
      apply list_elem_of_further, list_elem_of_here. }
  eexists. split; [reflexivity|]. right. by repeat split.
Qed.

Lemma handle_read_resource_keeps_store
    (check_contents : list TextContent -> validated ReadResourceResult)
    (json_dumps_tasks : list Task -> string)
    (system_info_json : os_result string)
    (fs : FileSystem) (uri : string) (db : list Task) :
  (handle_read_resource check_contents json_dumps_tasks system_info_json
                        fs uri db).2 = db.
Proof.
  destruct (handle_read_resource_cases check_contents json_dumps_tasks
              system_info_json fs uri db) as (outcome & -> & _).
  reflexivity.
Qed.

Lemma handle_get_prompt_keeps_store
    (json_dumps_tasks : list Task -> string) (str_lower : string -> string)
    (name : string) (arguments : gmap string Py.value) (db : list Task) :
  (handle_get_prompt json_dumps_tasks str_lower name arguments db).2 = db.
Proof.
  unfold handle_get_prompt, bind, get_db, getitem, lower, ret, raise.
  repeat (case_match; simplify_eq/=; try done).
Qed.

(** C9: a tool call leaves the store as it is, or appends one record that is
    not completed (only [add_task] does), or sets the completion flag of one
    record to true (only [complete_task] does); so along every sequence of
    calls each record stays at its place with its identifier, title,
    description and date, a completed record stays completed, and the store
    never shrinks.  Reading a resource and getting a prompt leave the store
    as it is. *)
Theorem task_lifecycle_monotone (eval_rest : string -> Py.outcome string) :
  (forall (now name : string) (arguments : gmap string Py.value)
          (db : list Task),
     store_step name db (handle_call_tool eval_rest now name arguments db).2)
  /\ (forall (calls : list call) (db : list Task),
        persists db (serve eval_rest calls db).2
        /\ (length db <= length (serve eval_rest calls db).2)%nat)
  /\ (forall (check_contents : list TextContent -> validated ReadResourceResult)
             (json_dumps_tasks : list Task -> string)
             (system_info_json : os_result string) (fs : FileSystem)
             (uri : string) (db : list Task),
        (handle_read_resource check_contents json_dumps_tasks
                              system_info_json fs uri db).2
        = db)
  /\ (forall (json_dumps_tasks : list Task -> string)
             (str_lower : string -> string) (name : string)
             (arguments : gmap string Py.value) (db : list Task),
        (handle_get_prompt json_dumps_tasks str_lower name arguments db).2
        = db).
Proof.
  split; [apply handle_call_tool_store_step|].
  split; [|split; [apply handle_read_resource_keeps_store
                  |apply handle_get_prompt_keeps_store]].
  assert (Hpersists : forall calls db, persists db (serve eval_rest calls db).2).
  { induction calls as [|c cs IH]; intros db; [apply persists_refl|].
    simpl.
    pose proof (handle_call_tool_store_step eval_rest (call_now c)
                  (call_name c) (call_arguments c) db) as Hstep.
    destruct (handle_call_tool _ _ _ _ db) as [o db1]. simpl in Hstep.
    specialize (IH db1). destruct (serve eval_rest cs db1) as [os db2].
    simpl in *. eapply persists_trans; [by eapply store_step_persists|done]. }
  intros calls db. split; [apply Hpersists|].
  destruct (decide (length db = O)) as [->|Hne]; [lia|].
  destruct (lookup_lt_is_Some_2 db (length db - 1)) as [task Hlast]; [lia|].
  destruct (Hpersists calls db _ _ Hlast) as (task' & Hlast' & _).
  apply lookup_lt_Some in Hlast'. lia.
Qed.

(** ** The calculator *)

Lemma allowed_chars_spec (c : ascii) : c ∈ allowed_chars <-> allowed c.
Proof.
  assert (Hb : bool_decide (c ∈ allowed_chars)
               = Calc.is_digit c
                 || bool_decide (c ∈ list_ascii_of_string "+-*/.() ")).
  { destruct c as [[] [] [] [] [] [] [] []]; vm_compute; reflexivity. }
  unfold allowed.
  by rewrite <- (bool_decide_eq_true (c ∈ allowed_chars)), Hb, orb_true_iff,
    bool_decide_eq_true.
Qed.

Lemma all_allowed_spec (s : string) :
  forallb (fun c => bool_decide (c ∈ allowed_chars)) (list_ascii_of_string s)
  = true
  <-> forall c, c ∈ list_ascii_of_string s -> allowed c.
Proof.
  rewrite forallb_forall. split.
  - intros Hall c Hc%list_elem_of_In. apply allowed_chars_spec.
    specialize (Hall c Hc). by apply bool_decide_eq_true in Hall.
  - intros Hall c Hc%list_elem_of_In. apply bool_decide_eq_true.
    by apply allowed_chars_spec, Hall.
Qed.

(** The only exception the embedded fragment raises by itself. *)
Lemma eval_expr_Throws (e : Calc.expr) (ex : Py.exn) :
  Calc.eval_expr e = Calc.Throws ex ->
  ex = Py.Exn Py.ZeroDivisionError "division by zero".
Proof.
  induction e as [n|a IHa|a IHa|a IHa b IHb|a IHa b IHb|a IHa b IHb|a IHa b IHb];
    simpl; unfold Calc.binop;
    try (destruct (Calc.eval_expr a) as [x| |]; try done; auto;
         try (destruct (Calc.eval_expr b) as [y| |]; try done; auto)).
  - done.
  - destruct (y =? 0); [by intros [= <-]|done].
Qed.

Lemma fragment_Throws (s : string) (ex : Py.exn) :
  Calc.fragment s = Calc.Throws ex ->
  ex = Py.Exn Py.ZeroDivisionError "division by zero".
Proof.
  unfold Calc.fragment. repeat (case_match; try done).
  apply eval_expr_Throws.
Qed.

Lemma eval_raises_Exception (eval_rest : string -> Py.outcome string)
    (s : string) (e : Py.exn) :
  (forall e', eval_rest s = Py.Raise e' ->
     Py.is_Exception (Py.class e') = true) ->
  Calc.eval eval_rest s = Py.Raise e ->
  Py.is_Exception (Py.class e) = true.
Proof.
  intros Hrest. unfold Calc.eval.
  destruct (Calc.fragment s) as [n|ex|] eqn:Hfrag; [done| |by apply Hrest].
  intros [= <-]. by rewrite (fragment_Throws s ex Hfrag).
Qed.

Lemma calculate_rejects (eval_rest : string -> Py.outcome string)
    (arguments : gmap string Py.value) (s : string) (db : list Task) :
  arguments !! "expression" = Some (Py.Str s) ->
  all_allowed s = false ->
  calculate eval_rest arguments db
  = (Py.Return (text_result
                  "Invalid expression. Only basic math operations allowed."),
     db).
Proof.
  intros Harg Hall. unfold calculate, bind, getitem, try_except_Exception.
  rewrite Harg. cbn [ret iterate]. unfold all_allowed in Hall.
  by rewrite Hall.
Qed.

Lemma calculate_returns (eval_rest : string -> Py.outcome string)
    (arguments : gmap string Py.value) (s result : string) (db : list Task) :
  arguments !! "expression" = Some (Py.Str s) ->
  all_allowed s = true ->
  Calc.eval eval_rest s = Py.Return result ->
  calculate eval_rest arguments db
  = (Py.Return (text_result (s +:+ " = " +:+ result)), db).
Proof.
  intros Harg Hall Heval.
  unfold calculate, bind, getitem, try_except_Exception, lift.
  rewrite Harg. cbn [ret iterate py_eval Py.str]. unfold all_allowed in Hall.
  by rewrite Hall, Heval.
Qed.

Lemma calculate_catches (eval_rest : string -> Py.outcome string)
    (arguments : gmap string Py.value) (s : string) (e : Py.exn)
    (db : list Task) :
  arguments !! "expression" = Some (Py.Str s) ->
  all_allowed s = true ->
  Calc.eval eval_rest s = Py.Raise e ->
  Py.is_Exception (Py.class e) = true ->
  calculate eval_rest arguments db
  = (Py.Return (text_result ("Calculation error: " +:+ Py.message e)), db).
Proof.
  intros Harg Hall Heval Hclass.
  unfold calculate, bind, getitem, try_except_Exception, lift.
  rewrite Harg. cbn [ret iterate py_eval Py.str]. unfold all_allowed in Hall.
  by rewrite Hall, Heval, Hclass.
Qed.

(** C4: [calculate] on ["2 + 2"] returns normally with the text
    ["2 + 2 = 4"]; on ["import os"] it returns the message for a disallowed
    expression, whatever the interpreter would make of that input, which the
    embedded fragment leaves wholly to the rest of the interpreter. *)
Theorem calculate_examples
    (eval_rest : string -> Py.outcome string) (now : string)
    (sum_arguments import_arguments : gmap string Py.value) (db : list Task) :
  sum_arguments !! "expression" = Some (Py.Str "2 + 2") ->
  import_arguments !! "expression" = Some (Py.Str "import os") ->
  handle_call_tool eval_rest now "calculate" sum_arguments db
  = (Py.Return (text_result "2 + 2 = 4"), db)
  /\ handle_call_tool eval_rest now "calculate" import_arguments db
     = (Py.Return (text_result
                     "Invalid expression. Only basic math operations allowed."),
        db)
  /\ Calc.eval eval_rest "import os" = eval_rest "import os".
Proof.
  intros Hsum Himport. split; [|split].
  - change (handle_call_tool eval_rest now "calculate" sum_arguments db)
      with (calculate eval_rest sum_arguments db).
    by apply (calculate_returns eval_rest sum_arguments "2 + 2" "4").
  - change (handle_call_tool eval_rest now "calculate" import_arguments db)
      with (calculate eval_rest import_arguments db).
    by apply (calculate_rejects eval_rest import_arguments "import os").
  - reflexivity.
Qed.

Lemma calculate_examples_witness :
  handle_call_tool obliging_rest "2025-08-16" "calculate"
                   (<["expression" := Py.Str "2 + 2"]> ∅) TASKS_DB
  = (Py.Return (text_result "2 + 2 = 4"), TASKS_DB)
  /\ handle_call_tool obliging_rest "2025-08-16" "calculate"
                      (<["expression" := Py.Str "import os"]> ∅) TASKS_DB
     = (Py.Return (text_result
                     "Invalid expression. Only basic math operations allowed."),
        TASKS_DB).
Proof.
  destruct (calculate_examples obliging_rest "2025-08-16"
              (<["expression" := Py.Str "2 + 2"]> ∅)
              (<["expression" := Py.Str "import os"]> ∅) TASKS_DB)
    as (Hsum & Himport & _).
  - vm_compute. reflexivity.
  - vm_compute. reflexivity.
  - split; [exact Hsum | exact Himport].
Defined.

(** C5: for every expression string [calculate] returns a normal result and
    leaves the store alone.  With a character outside the allowed set the text
    is the rejection message; with allowed characters only, the text is the
    input followed by [ = ] and the result when the evaluation returns, and
    [Calculation error: ] followed by the message of the exception when it
    raises.  The interpreter outside the embedded fragment is assumed to
    raise, on this input, only exceptions that derive from [Exception]. *)
Theorem calculate_never_raises
    (eval_rest : string -> Py.outcome string) (now : string)
    (arguments : gmap string Py.value) (expression : string)
    (db : list Task) :
  arguments !! "expression" = Some (Py.Str expression) ->
  (forall e, eval_rest expression = Py.Raise e ->
     Py.is_Exception (Py.class e) = true) ->
  exists text : string,
    handle_call_tool eval_rest now "calculate" arguments db
    = (Py.Return (text_result text), db)
    /\ ((exists c, c ∈ list_ascii_of_string expression /\ ~ allowed c) ->
        text = "Invalid expression. Only basic math operations allowed.")
    /\ ((forall c, c ∈ list_ascii_of_string expression -> allowed c) ->
        match Calc.eval eval_rest expression with
        | Py.Return result => text = expression +:+ " = " +:+ result
        | Py.Raise e => text = "Calculation error: " +:+ Py.message e
        end).
Proof.
  intros Harg Hrest.
  change (handle_call_tool eval_rest now "calculate" arguments db)
    with (calculate eval_rest arguments db).
  destruct (all_allowed expression) eqn:Hall.
  - pose proof (proj1 (all_allowed_spec expression) Hall) as Hchars.
    destruct (Calc.eval eval_rest expression) as [result|e] eqn:Heval.
    + eexists. split; [by eapply calculate_returns|].
      split; [|done]. intros (c & Hc & Hbad). destruct Hbad. by apply Hchars.
    + eexists. split.
      { eapply calculate_catches; [done..|].
        by eapply eval_raises_Exception. }
      split; [|done]. intros (c & Hc & Hbad). destruct Hbad. by apply Hchars.
  - eexists. split; [by eapply calculate_rejects|].
    split; [done|]. intros Hchars.
    apply all_allowed_spec in Hchars. unfold all_allowed in Hall. congruence.
Qed.

Lemma calculate_never_raises_witness :
  handle_call_tool no_rest "2025-08-16" "calculate"
                   (<["expression" := Py.Str "1/0"]> ∅) TASKS_DB
  = (Py.Return (text_result "Calculation error: division by zero"), TASKS_DB).
Proof.
  destruct (calculate_never_raises no_rest "2025-08-16"
              (<["expression" := Py.Str "1/0"]> ∅) "1/0" TASKS_DB)
    as (text & Hcall & _ & Hallowed).
  - vm_compute. reflexivity.
  - intros e He. injection He as <-. reflexivity.
  - rewrite Hcall.
    assert (Hchars : forall c, c ∈ list_ascii_of_string "1/0" -> allowed c).
    { apply all_allowed_spec. vm_compute. reflexivity. }
    specialize (Hallowed Hchars). vm_compute in Hallowed.
    rewrite Hallowed. reflexivity.
Defined.

(** ** Reading a note *)

(** C3, as stated, fails: reading [file://notes/missing.md] where nothing has
    that name does not return a result, it raises, also when the result
    object would accept any contents. *)
Lemma read_missing_note_not_soft :
  String.prefix "file://" "file://notes/missing.md" = true
  /\ ~ names_regular_file no_files
        (Path.str (Path.slice_from 7 "file://notes/missing.md"))
  /\ ~ exists result db',
         handle_read_resource any_contents (fun _ => "[]") (Done "{}")
                              no_files "file://notes/missing.md" TASKS_DB
         = (Py.Return result, db').
Proof.
  split; [reflexivity|]. split.
  - intros [Hexists _]. discriminate Hexists.
  - intros (result & db' & Hread). vm_compute in Hread. discriminate Hread.
Qed.

(** C3, amended: for a URI that starts with [file://] and whose remainder
    does not name an existing regular file, reading the resource is a hard
    failure: the handler returns no result and raises to its caller, with
    the store as it was.  When the tests [exists] and [is_file] answer, the
    exception is [FileNotFoundError] with a message that shows the path; when
    one of them cannot examine the path, it is the [OSError] of that test. *)
Theorem read_missing_note_raises
    (check_contents : list TextContent -> validated ReadResourceResult)
    (json_dumps_tasks : list Task -> string)
    (system_info_json : os_result string)
    (fs : FileSystem) (uri : string) (db : list Task) :
  String.prefix "file://" uri = true ->
  ~ names_regular_file fs (Path.str (Path.slice_from 7 uri)) ->
  exists e : Py.exn,
    handle_read_resource check_contents json_dumps_tasks system_info_json
                         fs uri db
    = (Py.Raise e, db)
    /\ match path_exists fs (Path.str (Path.slice_from 7 uri)) with
       | Fails message => e = Py.Exn Py.OSError message
       | Done false =>
           e = Py.Exn Py.FileNotFoundError
                 ("File not found: " +:+ Path.str (Path.slice_from 7 uri))
       | Done true =>
           match path_is_file fs (Path.str (Path.slice_from 7 uri)) with
           | Fails message => e = Py.Exn Py.OSError message
           | Done _ =>
               e = Py.Exn Py.FileNotFoundError
                     ("File not found: "
                      +:+ Path.str (Path.slice_from 7 uri))
           end
       end.
Proof.
  intros Hprefix Hmissing. unfold handle_read_resource.
  destruct (String.eqb_spec uri "tasks://database") as [->|_]; [done|].
  rewrite Hprefix. unfold names_regular_file in Hmissing.
  unfold bind, exists_and_is_file, os_call.
  destruct (path_exists fs _) as [[|]|message]; cbn [ret raise bind].
  - destruct (path_is_file fs _) as [[|]|message]; cbn [ret raise].
    + by destruct Hmissing.
    + by eexists.
    + by eexists.
  - by eexists.
  - by eexists.
Qed.

Lemma read_missing_note_raises_witness :
  handle_read_resource any_contents (fun _ => "[]") (Done "{}") no_files
                       "file://./notes//missing.md" TASKS_DB
  = (Py.Raise (Py.Exn Py.FileNotFoundError "File not found: notes/missing.md"),
     TASKS_DB).
Proof.
  destruct (read_missing_note_raises any_contents (fun _ => "[]") (Done "{}")
              no_files "file://./notes//missing.md" TASKS_DB)
    as (e & Hread & He).
  - reflexivity.
  - intros [Hexists _]. discriminate Hexists.
  - rewrite Hread. vm_compute in He. rewrite He. reflexivity.
Defined.

(** ** Listing the resources *)









(** ** The handlers on concrete requests *)

Example list_tasks_seed :
  handle_call_tool no_rest "2025-08-16" "list_tasks" ∅ TASKS_DB
  = (Py.Return (text_result
       ("Current Tasks:" +:+ Py.LF
        +:+ "⏳ [1] Learn MCP basics (created: 2025-08-15)" +:+ Py.LF
        +:+ "✅ [2] Build a simple tool (created: 2025-08-14)" +:+ Py.LF
        +:+ "⏳ [3] Understand resources (created: 2025-08-15)" +:+ Py.LF)),
     TASKS_DB).
Proof. reflexivity. Qed.

Example add_task_seed :
  handle_call_tool no_rest "2025-08-16" "add_task"
                   (<["title" := Py.Str "Write tests"]> ∅) TASKS_DB
  = (Py.Return (text_result "Task 'Write tests' added with ID 4"),
     TASKS_DB ++ [mkTask 4 (Py.Str "Write tests") (Some (Py.Str "")) false
                         "2025-08-16"]).
Proof. reflexivity. Qed.

Example add_task_without_title :
  handle_call_tool no_rest "2025-08-16" "add_task" ∅ TASKS_DB
  = (Py.Raise (Py.Exn Py.KeyError "'title'"), TASKS_DB).
Proof. reflexivity. Qed.

Example complete_task_seed :
  handle_call_tool no_rest "2025-08-16" "complete_task"
                   (<["task_id" := Py.Int 3]> ∅) TASKS_DB
  = (Py.Return (text_result "Task 'Understand resources' marked as completed!"),
     <[2%nat := mkTask 3 (Py.Str "Understand resources") None true "2025-08-15"]>
       TASKS_DB).
Proof. reflexivity. Qed.

Example get_weather_London :
  handle_call_tool no_rest "2025-08-16" "get_weather"
                   (<["city" := Py.Str "London"]> ∅) TASKS_DB
  = (Py.Return (text_result
       ("Weather in London:" +:+ Py.LF
        +:+ "🌡️ Temperature: 62°F" +:+ Py.LF
        +:+ "🌤️ Condition: Rainy" +:+ Py.LF
        +:+ "💧 Humidity: 90%")),
     TASKS_DB).
Proof. reflexivity. Qed.

Example calc_precedence :
  Calc.fragment "2 + 2 * 3 - (4 - -1)*2" = Calc.Value (-2).
Proof. reflexivity. Qed.

Example calc_left_to_right :
  Calc.fragment "1/0 + 1/2"
  = Calc.Throws (Py.Exn Py.ZeroDivisionError "division by zero").
Proof. reflexivity. Qed.

Example calc_beyond :
  map Calc.fragment ["1/2"; "2**3"; "7//2"; "1.5"; "007"; "2(3)"; "()"; ""; "1 2"]
  = [Calc.Beyond; Calc.Beyond; Calc.Beyond; Calc.Beyond; Calc.Beyond;
     Calc.Beyond; Calc.Beyond; Calc.Beyond; Calc.Beyond].
Proof. reflexivity. Qed.

Example calculate_non_string :
  handle_call_tool no_rest "2025-08-16" "calculate"
                   (<["expression" := Py.Int 3]> ∅) TASKS_DB
  = (Py.Return (text_result "Calculation error: 'int' object is not iterable"),
     TASKS_DB).
Proof. reflexivity. Qed.

Example path_str_examples :
  map Path.str ["./notes"; ""; "a//b/./c/"; "//a"; "///a"; "a/../b"]
  = ["notes"; "."; "a/b/c"; "//a"; "/a"; "a/../b"].
Proof. reflexivity. Qed.

Example list_resources_seeded :
  handle_list_resources plain_url seeded
  = Py.Return
      [ mkResource "tasks://database" "Task Database"
          "Current task list with completion status" "application/json";
        mkResource "file://notes/mcp_basics.md" "Note: mcp_basics"
          "Learning note about mcp basics" "text/markdown";
        mkResource "file://notes/learning_goals.md" "Note: learning_goals"
          "Learning note about learning goals" "text/markdown";
        mkResource "system://info" "System Information"
          "Current system date and time information" "application/json" ].
Proof. reflexivity. Qed.

Example list_resources_rejected_url :
  handle_list_resources (fun _ => Invalid "Input should be a valid URL") seeded
  = Py.Raise (Py.Exn Py.ValidationError "Input should be a valid URL").
Proof. reflexivity. Qed.

Example read_unknown_uri :
  handle_read_resource any_contents (fun _ => "[]") (Done "{}") no_files
                       "notes://x" TASKS_DB
  = (Py.Raise (Py.Exn Py.ValueError "Unknown resource URI: notes://x"),
     TASKS_DB).
Proof. reflexivity. Qed.

Example read_system_info :
  handle_read_resource any_contents (fun _ => "[]") (Done "{}") no_files
                       "system://info" TASKS_DB
  = (Py.Return (mkReadResourceResult [mkTextContent "text" "{}"]), TASKS_DB).
Proof. reflexivity. Qed.

Example read_system_info_without_directory :
  handle_read_resource any_contents (fun _ => "[]")
                       (Fails "[Errno 2] No such file or directory") no_files
                       "system://info" TASKS_DB
  = (Py.Raise (Py.Exn Py.OSError "[Errno 2] No such file or directory"),
     TASKS_DB).
Proof. reflexivity. Qed.

Example read_rejected_contents :
  handle_read_resource (fun _ => Invalid "1 validation error") (fun _ => "[]")
                       (Done "{}") seeded "file://notes/mcp_basics.md" TASKS_DB
  = (Py.Raise (Py.Exn Py.ValidationError "1 validation error"), TASKS_DB).
Proof. reflexivity. Qed.

(** ** More on completing a task *)

(** The loop stops at the first record that matches. *)
Lemma complete_loop_first (task_id : Py.value) (db : list Task) (i : nat)
    (task : Task) :
  db !! i = Some task ->
  Py.eqb (Py.Int (tk_id task)) task_id = true ->
  (forall j other, (j < i)%nat -> db !! j = Some other ->
     Py.eqb (Py.Int (tk_id other)) task_id = false) ->
  complete_loop task_id db
  = Some (set_completed true task, <[i := set_completed true task]> db).
Proof.
  revert i. induction db as [|t db IH]; intros i Hi Hmatch Hfirst; [done|].
  cbn [complete_loop]. destruct i as [|i]; simpl in Hi.
  - injection Hi as ->. by rewrite Hmatch.
  - rewrite (Hfirst O t); [|lia|done].
    rewrite (IH i Hi Hmatch); [done|].
    intros j other Hj Hother. apply (Hfirst (S j)); [lia|done].
Qed.

(** X1: when a record's identifier equals [task_id], [complete_task] sets the
    completion flag of the first such record, leaves every other record (also
    later ones with the same identifier) as it is, and answers with the title
    of the record it marked. *)
Theorem complete_task_marks_first_match
    (eval_rest : string -> Py.outcome string) (now : string)
    (arguments : gmap string Py.value) (task_id : Py.value)
    (db : list Task) (i : nat) (task : Task) :
  arguments !! "task_id" = Some task_id ->
  db !! i = Some task ->
  Py.eqb (Py.Int (tk_id task)) task_id = true ->
  (forall j other, (j < i)%nat -> db !! j = Some other ->
     Py.eqb (Py.Int (tk_id other)) task_id = false) ->
  handle_call_tool eval_rest now "complete_task" arguments db
  = (Py.Return (text_result ("Task '" +:+ Py.str (tk_title task)
                             +:+ "' marked as completed!")),
     <[i := set_completed true task]> db).
Proof.
  intros Harg Hi Hmatch Hfirst.
  change (handle_call_tool eval_rest now "complete_task" arguments db)
    with (complete_task arguments db).
  unfold complete_task, bind, getitem. rewrite Harg. cbn [ret get_db].
  by rewrite (complete_loop_first _ _ _ _ Hi Hmatch Hfirst).
Qed.

Lemma complete_task_marks_first_match_witness :
  handle_call_tool no_rest "2025-08-16" "complete_task"
    (<["task_id" := Py.Int 1]> ∅)
    (TASKS_DB ++ [mkTask 1 (Py.Str "Twin") None false "2025-08-16"])
  = (Py.Return (text_result "Task 'Learn MCP basics' marked as completed!"),
     [ mkTask 1 (Py.Str "Learn MCP basics") None true "2025-08-15";
       mkTask 2 (Py.Str "Build a simple tool") None true "2025-08-14";
       mkTask 3 (Py.Str "Understand resources") None false "2025-08-15";
       mkTask 1 (Py.Str "Twin") None false "2025-08-16" ]).
Proof.
  apply (complete_task_marks_first_match no_rest "2025-08-16"
           (<["task_id" := Py.Int 1]> ∅) (Py.Int 1)
           (TASKS_DB ++ [mkTask 1 (Py.Str "Twin") None false "2025-08-16"])
           O (mkTask 1 (Py.Str "Learn MCP basics") None false "2025-08-15")).
  - vm_compute. reflexivity.
  - reflexivity.
  - reflexivity.
  - intros j other Hj. inversion Hj.
Defined.

(** X2: [complete_task] is idempotent: a second call with the same arguments
    gives the same outcome as the first and leaves the store as the first
    call left it. *)
Theorem complete_task_idempotent
    (eval_rest : string -> Py.outcome string) (now now' : string)
    (arguments : gmap string Py.value) (db : list Task) :
  let first := handle_call_tool eval_rest now "complete_task" arguments db in
  handle_call_tool eval_rest now' "complete_task" arguments first.2 = first.
Proof.
  change (handle_call_tool eval_rest now "complete_task" arguments db)
    with (complete_task arguments db).
  cbv zeta.
  change (handle_call_tool eval_rest now' "complete_task" arguments
            (complete_task arguments db).2)
    with (complete_task arguments (complete_task arguments db).2).
  unfold complete_task, bind, getitem.
  destruct (arguments !! "task_id") as [task_id|]; [|done].
  cbn [ret get_db].
  destruct (complete_loop task_id db) as [[found db']|] eqn:Hloop.
  - destruct (complete_loop_Some _ _ _ _ Hloop)
      as (i & task & Hi & Hmatch & Hfirst & -> & ->).
    unfold put_db, ret. cbn [snd].
    rewrite (complete_loop_first task_id _ i (set_completed true task)).
    + by rewrite list_insert_insert_eq.
    + apply list_lookup_insert_eq. by eapply lookup_lt_Some.
    + done.
    + intros j other Hj Hother.
      rewrite list_lookup_insert_ne in Hother by lia. by eapply Hfirst.
  - unfold ret. cbn [snd]. by rewrite Hloop.
Qed.

(** ** Identifiers along arbitrary calls *)

(** What one tool call does to the identifiers in the store: nothing, or one
    identifier greater than all the others is added at the end. *)
Lemma handle_call_tool_ids (eval_rest : string -> Py.outcome string)
    (now name : string) (arguments : gmap string Py.value) (db : list Task) :
  let ids' := map tk_id (handle_call_tool eval_rest now name arguments db).2 in
  ids' = map tk_id db
  \/ exists new_id, ids' = map tk_id db ++ [new_id]
                    /\ forall x, x ∈ map tk_id db -> x < new_id.
Proof.
  cbv zeta. unfold handle_call_tool.
  destruct (String.eqb_spec name "add_task") as [->|_].
  { destruct (arguments !! "title") as [title|] eqn:Htitle.
    - destruct (add_task_spec now arguments title db Htitle)
        as (new_id & -> & Hnext).
      right. exists new_id. cbn [snd]. rewrite map_app. split; [done|].
      intros x (old & -> & Hold)%list_elem_of_fmap.
      by eapply next_identifier_above.
    - left. unfold add_task, bind, getitem. by rewrite Htitle. }
  destruct (String.eqb_spec name "list_tasks") as [->|_].
  { left. by destruct db. }
  destruct (String.eqb_spec name "complete_task") as [->|_].
  { left. unfold complete_task, bind, getitem.
    destruct (arguments !! "task_id") as [task_id|]; [|done].
    cbn [ret get_db].
    destruct (complete_loop task_id db) as [[found db']|] eqn:Hloop; [|done].
    destruct (complete_loop_Some _ _ _ _ Hloop) as (i & task & Hi & _ & _ & _ & ->).
    unfold put_db, ret. cbn [snd].
    change (tk_id <$> <[i:=set_completed true task]> db = tk_id <$> db).
    rewrite list_fmap_insert. apply list_insert_id.
    by rewrite list_lookup_fmap, Hi. }
  destruct (String.eqb_spec name "get_weather") as [->|_].
  { left. unfold get_weather, bind, getitem. by destruct (arguments !! "city"). }
  destruct (String.eqb_spec name "calculate") as [->|_].
  { left. by rewrite calculate_keeps_store. }
  by left.
Qed.

(** X3: the identifiers in the store are stable under every sequence of tool
    calls: the identifiers present before are still there, in the same order
    and at the same places, and if they were pairwise distinct, so are the
    identifiers afterwards. *)
Theorem serve_keeps_ids_distinct (eval_rest : string -> Py.outcome string)
    (calls : list call) (db : list Task) :
  map tk_id db `prefix_of` map tk_id (serve eval_rest calls db).2
  /\ (NoDup (map tk_id db) -> NoDup (map tk_id (serve eval_rest calls db).2)).
Proof.
  revert db. induction calls as [|c cs IH]; intros db; [done|].
  simpl.
  pose proof (handle_call_tool_ids eval_rest (call_now c) (call_name c)
                (call_arguments c) db) as Hstep.
  destruct (handle_call_tool _ _ _ _ db) as [o db1]. cbn [snd] in Hstep.
  destruct (IH db1) as [Hprefix Hnodup].
  destruct (serve eval_rest cs db1) as [os db2]. cbn [snd] in *.
  destruct Hstep as [Hsame|(new_id & Hnew & Hfresh)].
  - rewrite <- Hsame. done.
  - split.
    + etrans; [|exact Hprefix]. rewrite Hnew. by apply prefix_app_r.
    + intros Hdb. apply Hnodup. rewrite Hnew.
      apply NoDup_app. split; [done|]. split; [|apply NoDup_singleton].
      intros x Hx ->%list_elem_of_singleton. specialize (Hfresh _ Hx). lia.
Qed.

(** ** Adding a task, then using it *)

Lemma concat_lines_app (l1 l2 : list string) :
  concat_lines (l1 ++ l2) = concat_lines l1 +:+ concat_lines l2.
Proof.
  unfold concat_lines. induction l1 as [|x l1 IH]; cbn [app foldr]; [done|].
  by rewrite IH, append_assoc.
Qed.

(** X4: the identifier that [add_task] assigns can be handed to
    [complete_task] right away: that call marks exactly the record just
    added, whatever else the store holds, and answers with its title. *)
Theorem add_task_then_complete
    (eval_rest : string -> Py.outcome string) (now now' : string)
    (arguments : gmap string Py.value) (title : Py.value) (db : list Task) :
  arguments !! "title" = Some title ->
  exists new : Task,
    (handle_call_tool eval_rest now "add_task" arguments db).2 = db ++ [new]
    /\ tk_title new = title
    /\ tk_completed new = false
    /\ forall arguments' : gmap string Py.value,
         arguments' !! "task_id" = Some (Py.Int (tk_id new)) ->
         handle_call_tool eval_rest now' "complete_task" arguments'
                          (db ++ [new])
         = (Py.Return (text_result ("Task '" +:+ Py.str title
                                    +:+ "' marked as completed!")),
            db ++ [set_completed true new]).
Proof.
  intros Htitle. rewrite handle_add_task.
  destruct (add_task_spec now arguments title db Htitle)
    as (new_id & -> & Hnext).
  eexists. split; [reflexivity|]. split; [done|]. split; [done|].
  intros arguments' Harg.
  change (handle_call_tool eval_rest now' "complete_task" arguments' ?d)
    with (complete_task arguments' d).
  unfold complete_task, bind, getitem. rewrite Harg. cbn [ret get_db tk_id].
  rewrite (complete_loop_first _ _ (length db)
             (mkTask new_id title
                (Some (get_default arguments "description" (Py.Str "")))
                false now)).
  - unfold put_db. rewrite insert_app_r_alt, Nat.sub_diag by done. done.
  - by rewrite list_lookup_middle.
  - cbn. apply Z.eqb_refl.
  - intros j other Hj Hother. cbn. apply Z.eqb_neq.
    rewrite lookup_app_l in Hother by done.
    apply list_elem_of_lookup_2 in Hother.
    pose proof (next_identifier_above db new_id other Hnext Hother). lia.
Qed.

Lemma add_task_then_complete_witness :
  exists new : Task,
    (handle_call_tool no_rest "2025-08-16" "add_task"
       (<["title" := Py.Str "Write tests"]> ∅) TASKS_DB).2 = TASKS_DB ++ [new]
    /\ tk_title new = Py.Str "Write tests".
Proof.
  destruct (add_task_then_complete no_rest "2025-08-16" "2025-08-17"
              (<["title" := Py.Str "Write tests"]> ∅) (Py.Str "Write tests")
              TASKS_DB) as (new & Hadd & Htitle & _).
  - vm_compute. reflexivity.
  - exists new. split; [exact Hadd | exact Htitle].
Defined.

(** X5: after [add_task], [list_tasks] shows the lines of the records that
    were there, in their order, followed by one line for the new record:
    pending, with the assigned identifier, the title and the date of the
    call. *)
Theorem add_task_then_list
    (eval_rest : string -> Py.outcome string) (now now' : string)
    (arguments arguments' : gmap string Py.value) (title : Py.value)
    (db : list Task) :
  arguments !! "title" = Some title ->
  exists new : Task,
    (handle_call_tool eval_rest now "add_task" arguments db).2 = db ++ [new]
    /\ handle_call_tool eval_rest now' "list_tasks" arguments' (db ++ [new])
       = (Py.Return (text_result
            ("Current Tasks:" +:+ Py.LF
             +:+ concat_lines (map task_line db)
             +:+ "⏳ [" +:+ Py.str_int (tk_id new) +:+ "] " +:+ Py.str title
             +:+ " (created: " +:+ now +:+ ")" +:+ Py.LF)),
          db ++ [new]).
Proof.
  intros Htitle. rewrite handle_add_task.
  destruct (add_task_spec now arguments title db Htitle)
    as (new_id & -> & Hnext).
  eexists. split; [reflexivity|].
  change (handle_call_tool eval_rest now' "list_tasks" arguments' ?d)
    with (list_tasks d).
  unfold list_tasks, bind, get_db.
  destruct (db ++ _) as [|t rest] eqn:Hdb; [by destruct db|].
  rewrite <- Hdb. unfold ret.
  rewrite fold_left_lines, map_app, concat_lines_app.
  unfold concat_lines at 2. cbn [map foldr]. rewrite append_nil_r.
  reflexivity.
Qed.

Lemma add_task_then_list_witness :
  exists new : Task,
    (handle_call_tool no_rest "2025-08-16" "add_task"
       (<["title" := Py.Str "Write tests"]> ∅) TASKS_DB).2 = TASKS_DB ++ [new].
Proof.
  destruct (add_task_then_list no_rest "2025-08-16" "2025-08-17"
              (<["title" := Py.Str "Write tests"]> ∅) ∅ (Py.Str "Write tests")
              TASKS_DB) as (new & Hadd & _).
  - vm_compute. reflexivity.
  - exists new. exact Hadd.
Defined.

(** ** The tool listing and the dispatcher *)

(** Whatever the value of [expression], [calculate] returns normally when
    the rest of the interpreter raises nothing but subclasses of
    [Exception]. *)
Lemma calculate_returns_normally (eval_rest : string -> Py.outcome string)
    (arguments : gmap string Py.value) (expression : Py.value)
    (db : list Task) :
  arguments !! "expression" = Some expression ->
  (forall s e, eval_rest s = Py.Raise e -> Py.is_Exception (Py.class e) = true) ->
  exists text, calculate eval_rest arguments db
               = (Py.Return (text_result text), db).
Proof.
  intros Harg Hrest. destruct expression as [n|s|b|].
  2:{ destruct (all_allowed s) eqn:Hall.
      - destruct (Calc.eval eval_rest s) as [result|e] eqn:Heval.
        + eexists. by eapply calculate_returns.
        + eexists. eapply calculate_catches; [done..|].
          eapply eval_raises_Exception; [|done]. apply Hrest.
      - eexists. by eapply calculate_rejects. }
  all: unfold calculate, bind, getitem, try_except_Exception;
       rewrite Harg; by eexists.
Qed.

(** X6: a tool called without an argument that its listed schema requires
    raises [KeyError] naming that argument, from every one of the listed
    tools (in [calculate] the lookup stands before the [try]), and the store
    stays as it was. *)
Theorem listed_tool_missing_required
    (eval_rest : string -> Py.outcome string) (now : string) (tool : Tool)
    (key : string) (arguments : gmap string Py.value) (db : list Task) :
  tool ∈ handle_list_tools ->
  key ∈ required_keys (inputSchema tool) ->
  arguments !! key = None ->
  handle_call_tool eval_rest now (tool_name tool) arguments db
  = (Py.Raise (Py.Exn Py.KeyError ("'" +:+ key +:+ "'")), db).
Proof.
  unfold handle_list_tools. intros Hin Hkey Hmissing.
  repeat (apply elem_of_cons in Hin as [->|Hin];
          [vm_compute in Hkey;
           first [by apply elem_of_nil in Hkey
                 |apply list_elem_of_singleton in Hkey; subst key]|]);
    [| | | |by apply elem_of_nil in Hin].
  - cbn [tool_name]. rewrite handle_add_task.
    unfold add_task, bind, getitem. by rewrite Hmissing.
  - change (handle_call_tool eval_rest now _ arguments db)
      with (complete_task arguments db).
    unfold complete_task, bind, getitem. by rewrite Hmissing.
  - change (handle_call_tool eval_rest now _ arguments db)
      with (get_weather arguments db).
    unfold get_weather, bind, getitem. by rewrite Hmissing.
  - change (handle_call_tool eval_rest now _ arguments db)
      with (calculate eval_rest arguments db).
    unfold calculate, bind, getitem. by rewrite Hmissing.
Qed.

Lemma listed_tool_missing_required_witness :
  handle_call_tool no_rest "2025-08-16" "calculate" ∅ TASKS_DB
  = (Py.Raise (Py.Exn Py.KeyError "'expression'"), TASKS_DB).
Proof.
  apply (listed_tool_missing_required no_rest "2025-08-16"
           (mkTool "calculate" "Perform basic mathematical calculations"
              (JDict [("type", JStr "object");
                      ("properties",
                       JDict [("expression",
                               property "string"
                                 "Mathematical expression to evaluate")]);
                      ("required", JList [JStr "expression"])]))
           "expression" ∅ TASKS_DB).
  - unfold handle_list_tools. do 4 apply list_elem_of_further.
    apply list_elem_of_here.
  - vm_compute. apply list_elem_of_here.
  - reflexivity.
Defined.

(** X7: a listed tool that is given every argument its schema requires
    returns a normal result, whatever the arguments are among strings,
    integers, booleans and [None] (an [expression] or a [city] that is not a
    string included), provided the interpreter behind [eval] raises only
    subclasses of [Exception]. *)
Theorem listed_tool_with_required_returns
    (eval_rest : string -> Py.outcome string) (now : string) (tool : Tool)
    (arguments : gmap string Py.value) (db : list Task) :
  tool ∈ handle_list_tools ->
  (forall key, key ∈ required_keys (inputSchema tool) ->
     is_Some (arguments !! key)) ->
  (forall s e, eval_rest s = Py.Raise e -> Py.is_Exception (Py.class e) = true) ->
  exists result db',
    handle_call_tool eval_rest now (tool_name tool) arguments db
    = (Py.Return result, db').
Proof.
  unfold handle_list_tools. intros Hin Hkeys Hrest.
  repeat (apply elem_of_cons in Hin as [->|Hin];
          [try (destruct (Hkeys _ (list_elem_of_here _ _)) as [v Hv])|]);
    [| | | | |by apply elem_of_nil in Hin].
  - cbn [tool_name]. rewrite handle_add_task.
    destruct (add_task_spec now arguments v db Hv) as (new_id & -> & _).
    by eexists _, _.
  - change (handle_call_tool eval_rest now _ arguments db)
      with (list_tasks db).
    destruct db; by eexists _, _.
  - change (handle_call_tool eval_rest now _ arguments db)
      with (complete_task arguments db).
    unfold complete_task, bind, getitem. rewrite Hv. cbn [ret get_db].
    destruct (complete_loop v db) as [[found db']|]; by eexists _, _.
  - change (handle_call_tool eval_rest now _ arguments db)
      with (get_weather arguments db).
    unfold get_weather, bind, getitem. rewrite Hv. by eexists _, _.
  - change (handle_call_tool eval_rest now _ arguments db)
      with (calculate eval_rest arguments db).
    destruct (calculate_returns_normally eval_rest arguments v db Hv Hrest)
      as [text ->].
    by eexists _, _.
Qed.

Lemma listed_tool_with_required_returns_witness :
  exists result db',
    handle_call_tool no_rest "2025-08-16" "calculate"
                     (<["expression" := Py.Int 3]> ∅) TASKS_DB
    = (Py.Return result, db')
    /\ result
       = text_result "Calculation error: 'int' object is not iterable".
Proof.
  destruct (listed_tool_with_required_returns no_rest "2025-08-16"
           (mkTool "calculate" "Perform basic mathematical calculations"
              (JDict [("type", JStr "object");
                      ("properties",
                       JDict [("expression",
                               property "string"
                                 "Mathematical expression to evaluate")]);
                      ("required", JList [JStr "expression"])]))
           (<["expression" := Py.Int 3]> ∅) TASKS_DB)
    as (result & db' & Hcall).
  - unfold handle_list_tools. do 4 apply list_elem_of_further.
    apply list_elem_of_here.
  - intros key Hkey. vm_compute in Hkey.
    apply list_elem_of_singleton in Hkey. subst key.
    exists (Py.Int 3). vm_compute. reflexivity.
  - intros s e He. injection He as <-. reflexivity.
  - exists result, db'. split; [exact Hcall|].
    vm_compute in Hcall. by injection Hcall as <- _.
Defined.

(** X8: a listed tool looks only at the arguments its schema declares: two
    argument dictionaries that agree on the declared properties give the
    same outcome and the same store. *)
Theorem listed_tool_ignores_undeclared
    (eval_rest : string -> Py.outcome string) (now : string) (tool : Tool)
    (arguments arguments' : gmap string Py.value) (db : list Task) :
  tool ∈ handle_list_tools ->
  (forall key, key ∈ declared_keys (inputSchema tool) ->
     arguments !! key = arguments' !! key) ->
  handle_call_tool eval_rest now (tool_name tool) arguments db
  = handle_call_tool eval_rest now (tool_name tool) arguments' db.
Proof.
  unfold handle_list_tools. intros Hin Hagree.
  repeat (apply elem_of_cons in Hin as [->|Hin]; [cbn in Hagree|]);
    [| | | | |by apply elem_of_nil in Hin].
  - rewrite !handle_add_task. unfold add_task, bind, getitem, get_default.
    by rewrite (Hagree "title"), (Hagree "description") by set_solver.
  - reflexivity.
  - change (complete_task arguments db = complete_task arguments' db).
    unfold complete_task, bind, getitem.
    by rewrite (Hagree "task_id") by set_solver.
  - change (get_weather arguments db = get_weather arguments' db).
    unfold get_weather, bind, getitem.
    by rewrite (Hagree "city") by set_solver.
  - change (calculate eval_rest arguments db = calculate eval_rest arguments' db).
    unfold calculate, bind, getitem.
    by rewrite (Hagree "expression") by set_solver.
Qed.

Lemma listed_tool_ignores_undeclared_witness :
  handle_call_tool no_rest "2025-08-16" "get_weather"
    (<["city" := Py.Str "London"]> ∅) TASKS_DB
  = handle_call_tool no_rest "2025-08-16" "get_weather"
      (<["units" := Py.Str "metric"]> (<["city" := Py.Str "London"]> ∅))
      TASKS_DB.
Proof.
  apply (listed_tool_ignores_undeclared no_rest "2025-08-16"
           (mkTool "get_weather" "Get current weather information (simulated)"
              (JDict [("type", JStr "object");
                      ("properties",
                       JDict [("city", property "string" "The city name")]);
                      ("required", JList [JStr "city"])]))).
  - unfold handle_list_tools. do 3 apply list_elem_of_further.
    apply list_elem_of_here.
  - intros key Hkey. vm_compute in Hkey.
    apply list_elem_of_singleton in Hkey. subst key. vm_compute. reflexivity.
Defined.

(** A [try] whose handler returns lets through only what [Exception] does not
    cover. *)
Lemma try_except_outcome {A : Type} (body : handler A)
    (h : Py.exn -> handler A) (db : list Task) :
  (forall e db', exists r, (h e db').1 = Py.Return r) ->
  (exists r, (try_except_Exception body h db).1 = Py.Return r)
  \/ (exists e, (try_except_Exception body h db).1 = Py.Raise e
                /\ Py.is_Exception (Py.class e) = false).
Proof.
  intros Hh. unfold try_except_Exception.
  destruct (body db) as [[r|e] db']; [left; by eexists|].
  destruct (Py.is_Exception (Py.class e)) eqn:He; [left; apply Hh|].
  right. by exists e.
Qed.

(** The outcomes [calculate] can have: a result, the [KeyError] of the
    missing argument, or an exception outside [Exception] that came out of
    the interpreter. *)
Lemma calculate_outcome (eval_rest : string -> Py.outcome string)
    (arguments : gmap string Py.value) (db : list Task) :
  (exists result, (calculate eval_rest arguments db).1 = Py.Return result)
  \/ (calculate eval_rest arguments db).1
     = Py.Raise (Py.Exn Py.KeyError "'expression'")
  \/ (exists e, (calculate eval_rest arguments db).1 = Py.Raise e
                /\ Py.is_Exception (Py.class e) = false).
Proof.
  unfold calculate, bind at 1, getitem.
  destruct (arguments !! "expression") as [v|]; [|right; by left].
  cbn [ret].
  match goal with
  | |- context [try_except_Exception ?body ?h db] =>
      destruct (try_except_outcome body h db) as [Hr|He];
      [intros e db'; by eexists|by left|right; by right]
  end.
Qed.

(** X9: the dispatcher and the listing agree on the tools: a call ends in
    the [ValueError] for an unknown tool exactly when its name is not the
    name of a listed tool. *)
Theorem unknown_tool_iff_not_listed
    (eval_rest : string -> Py.outcome string) (now name : string)
    (arguments : gmap string Py.value) (db : list Task) :
  (handle_call_tool eval_rest now name arguments db).1
  = Py.Raise (Py.Exn Py.ValueError ("Unknown tool: " +:+ name))
  <-> name ∉ map tool_name handle_list_tools.
Proof.
  change (map tool_name handle_list_tools)
    with ["add_task"; "list_tasks"; "complete_task"; "get_weather"; "calculate"].
  unfold handle_call_tool.
  destruct (String.eqb_spec name "add_task") as [->|Hadd].
  { split; [|set_solver]. intros Hraise. exfalso. revert Hraise.
    destruct (arguments !! "title") as [title|] eqn:Htitle.
    - by destruct (add_task_spec now arguments title db Htitle) as (? & -> & _).
    - unfold add_task, bind, getitem. by rewrite Htitle. }
  destruct (String.eqb_spec name "list_tasks") as [->|Hlist].
  { split; [|set_solver]. intros Hraise. exfalso. revert Hraise.
    by destruct db. }
  destruct (String.eqb_spec name "complete_task") as [->|Hcomplete].
  { split; [|set_solver]. intros Hraise. exfalso. revert Hraise.
    unfold complete_task, bind, getitem.
    destruct (arguments !! "task_id") as [v|]; [|done]. cbn [ret get_db].
    by destruct (complete_loop v db) as [[found db']|]. }
  destruct (String.eqb_spec name "get_weather") as [->|Hweather].
  { split; [|set_solver]. intros Hraise. exfalso. revert Hraise.
    unfold get_weather, bind, getitem.
    by destruct (arguments !! "city"). }
  destruct (String.eqb_spec name "calculate") as [->|Hcalculate].
  { split; [|set_solver]. intros Hraise. exfalso. revert Hraise.
    destruct (calculate_outcome eval_rest arguments db)
      as [[r ->]|[->|(e & -> & He)]]; [done..|].
    intros [= ->]. discriminate He. }
  split; [|done]. intros _ Hin.
  repeat (apply elem_of_cons in Hin as [->|Hin]; [congruence|]).
  by apply elem_of_nil in Hin.
Qed.

(** ** Listed resources and reading them *)


Lemma slice_from_file (path : string) :
  Path.slice_from 7 ("file://" +:+ path) = path.
Proof.
  unfold Path.slice_from.
  change (list_ascii_of_string ("file://" +:+ path))
    with ("f" :: "i" :: "l" :: "e" :: ":" :: "/" :: "/"
          :: list_ascii_of_string path)%char.
  cbn [drop]. apply string_of_list_ascii_of_string.
Qed.



Lemma prefix_file (path : string) :
  String.prefix "file://" ("file://" +:+ path) = true.
Proof. by destruct path. Qed.

(** Reading [file://<path>] goes to the path as [Path] shows it. *)
Lemma handle_read_resource_file
    (check_contents : list TextContent -> validated ReadResourceResult)
    (json_dumps_tasks : list Task -> string)
    (system_info_json : os_result string)
    (fs : FileSystem) (path : string) (db : list Task) :
  handle_read_resource check_contents json_dumps_tasks system_info_json fs
                       ("file://" +:+ path) db
  = bind (exists_and_is_file fs (Path.str path))
         (fun found =>
            if found
            then bind (read_text_of fs (Path.str path))
                      (new_ReadResourceResult check_contents)
            else raise (Py.Exn Py.FileNotFoundError
                          ("File not found: " +:+ Path.str path)))
         db.
Proof.
  unfold handle_read_resource.
  change (String.eqb ("file://" +:+ path) "tasks://database") with false.
  cbv iota. by rewrite prefix_file, slice_from_file.
Qed.

Lemma exists_and_is_file_true (fs : FileSystem) (file_path : string)
    (db : list Task) :
  names_regular_file fs file_path ->
  exists_and_is_file fs file_path db = (Py.Return true, db).
Proof.
  intros [Hexists Hfile]. unfold exists_and_is_file, bind, os_call.
  by rewrite Hexists, Hfile.
Qed.



(** X11: [handle_read_resource] is not confined to the notes directory: for
    every path, reading [file://] followed by the path reads the regular
    file that the path names, wherever it lies, and constructs the result
    from its text. *)
Theorem read_resource_reads_any_path
    (check_contents : list TextContent -> validated ReadResourceResult)
    (json_dumps_tasks : list Task -> string)
    (system_info_json : os_result string)
    (fs : FileSystem) (path content : string) (db : list Task) :
  names_regular_file fs (Path.str path) ->
  read_text fs (Path.str path) = ReadText content ->
  handle_read_resource check_contents json_dumps_tasks system_info_json fs
                       ("file://" +:+ path) db
  = (construct (check_contents [mkTextContent "text" content]), db).
Proof.
  intros Hfile Hread. rewrite handle_read_resource_file.
  unfold bind at 1. rewrite exists_and_is_file_true by done.
  unfold bind, read_text_of. by rewrite Hread.
Qed.

Lemma read_resource_reads_any_path_witness :
  handle_read_resource any_contents (fun _ => "[]") (Done "{}")
    (mkFileSystem []
       (fun p => Done (String.eqb p "/etc/hostname"))
       (fun p => Done (String.eqb p "/etc/hostname"))
       (fun p => if String.eqb p "/etc/hostname" then ReadText "playground"
                 else ReadFails "[Errno 2] No such file or directory"))
    "file:///etc//hostname" TASKS_DB
  = (Py.Return (mkReadResourceResult [mkTextContent "text" "playground"]),
     TASKS_DB).
Proof.
  apply (read_resource_reads_any_path any_contents (fun _ => "[]") (Done "{}")
           (mkFileSystem []
              (fun p => Done (String.eqb p "/etc/hostname"))
              (fun p => Done (String.eqb p "/etc/hostname"))
              (fun p => if String.eqb p "/etc/hostname"
                        then ReadText "playground"
                        else ReadFails "[Errno 2] No such file or directory"))
           "/etc//hostname" "playground" TASKS_DB).
  - split; reflexivity.
  - reflexivity.
Defined.

(** X12: reading a resource ends in the [ValueError] for an unknown URI
    exactly when the URI is neither [tasks://database] nor [system://info]
    and does not start with [file://]; in every case the store is left as it
    was. *)
Theorem unknown_resource_iff
    (check_contents : list TextContent -> validated ReadResourceResult)
    (json_dumps_tasks : list Task -> string)
    (system_info_json : os_result string)
    (fs : FileSystem) (uri : string) (db : list Task) :
  ((handle_read_resource check_contents json_dumps_tasks system_info_json
                         fs uri db).1
   = Py.Raise (Py.Exn Py.ValueError ("Unknown resource URI: " +:+ uri))
   <-> uri <> "tasks://database" /\ uri <> "system://info"
       /\ String.prefix "file://" uri = false)
  /\ (handle_read_resource check_contents json_dumps_tasks system_info_json
                           fs uri db).2 = db.
Proof.
  split; [|apply handle_read_resource_keeps_store].
  destruct (handle_read_resource_cases check_contents json_dumps_tasks
              system_info_json fs uri db)
    as (outcome & -> & [[Hknown Hout]|(Ht & Hs & Hp & ->)]); cbn [fst].
  - split.
    + intros ->. destruct Hout as [[r Hr]|(e & [= <-] & He)]; [done|].
      cbn in He.
      repeat (apply elem_of_cons in He as [He|He]; [discriminate He|]).
      by apply elem_of_nil in He.
    + intros (Ht & Hs & Hp). destruct Hknown as [->|[->|Hfile]]; congruence.
  - done.
Qed.



(** ** The prompt listing and the prompt handler *)

(** X15: the prompt handler and the prompt listing agree: a request ends in
    the [ValueError] for an unknown prompt exactly when its name is not the
    name of a listed prompt. *)
Theorem unknown_prompt_iff_not_listed
    (json_dumps_tasks : list Task -> string) (str_lower : string -> string)
    (name : string) (arguments : gmap string Py.value) (db : list Task) :
  (handle_get_prompt json_dumps_tasks str_lower name arguments db).1
  = Py.Raise (Py.Exn Py.ValueError ("Unknown prompt: " +:+ name))
  <-> name ∉ map prompt_name handle_list_prompts.
Proof.
  change (map prompt_name handle_list_prompts)
    with ["task_summary"; "learning_plan"; "explain_concept"].
  unfold handle_get_prompt.
  destruct (String.eqb_spec name "task_summary") as [->|Hsummary].
  { split; [|intros Hnot; destruct Hnot; by left].
    intros Hraise. exfalso. revert Hraise.
    unfold bind, lower, get_default.
    destruct (default _ _) as [n|s|b|]; try done.
    cbn [ret get_db]. by destruct (String.eqb _ _). }
  destruct (String.eqb_spec name "learning_plan") as [->|Hplan].
  { split; [|intros Hnot; destruct Hnot; right; by left].
    intros Hraise. exfalso. revert Hraise.
    unfold bind, getitem. by destruct (arguments !! "skill_level"). }
  destruct (String.eqb_spec name "explain_concept") as [->|Hconcept].
  { split; [|intros Hnot; destruct Hnot; right; right; by left].
    intros Hraise. exfalso. revert Hraise.
    unfold bind, getitem. by destruct (arguments !! "concept"). }
  split; [|done]. intros _ Hin.
  repeat (apply elem_of_cons in Hin as [->|Hin]; [congruence|]).
  by apply elem_of_nil in Hin.
Qed.

(** The text of the [task_summary] prompt over the tasks it shows. *)
Lemma task_summary_eq
    (json_dumps_tasks : list Task -> string) (str_lower : string -> string)
    (arguments : gmap string Py.value) (s : string) (db : list Task) :
  get_default arguments "include_completed" (Py.Str "true") = Py.Str s ->
  handle_get_prompt json_dumps_tasks str_lower "task_summary" arguments db
  = (Py.Return
       (user_prompt "Task summary prompt with current task data"
          ((if String.eqb (str_lower s) "true"
            then "Please provide a comprehensive summary of all tasks (completed and pending)."
            else "Please provide a summary of pending tasks only.")
           +:+ Py.LF +:+ Py.LF +:+ "Current tasks data:" +:+ Py.LF
           +:+ json_dumps_tasks
                 (if String.eqb (str_lower s) "true" then db
                  else filter (fun task => tk_completed task = false) db))),
     db).
Proof.
  intros Hget. unfold handle_get_prompt.
  change (String.eqb "task_summary" "task_summary") with true. cbv iota.
  unfold bind, lower. rewrite Hget. cbn [ret get_db].
  by destruct (String.eqb (str_lower s) "true").
Qed.

(** X16: a listed prompt asked for without an argument that its listing
    marks as required raises [KeyError] naming that argument; given all its
    required arguments, and [include_completed] (if given at all) as a
    string, it returns a prompt and leaves the store as it was. *)
Theorem listed_prompt_required_arguments
    (json_dumps_tasks : list Task -> string) (str_lower : string -> string)
    (p : Prompt) (arguments : gmap string Py.value) (db : list Task) :
  p ∈ handle_list_prompts ->
  (forall key, key ∈ required_arguments p -> arguments !! key = None ->
     handle_get_prompt json_dumps_tasks str_lower (prompt_name p) arguments db
     = (Py.Raise (Py.Exn Py.KeyError ("'" +:+ key +:+ "'")), db))
  /\ ((forall key, key ∈ required_arguments p -> is_Some (arguments !! key)) ->
      (forall v, arguments !! "include_completed" = Some v ->
         exists s, v = Py.Str s) ->
      exists result,
        handle_get_prompt json_dumps_tasks str_lower (prompt_name p)
                          arguments db
        = (Py.Return result, db)).
Proof.
  unfold handle_list_prompts. intros Hin.
  repeat (apply elem_of_cons in Hin as [->|Hin]; [split|]);
    [| | | | | |by apply elem_of_nil in Hin].
  - intros key Hkey. vm_compute in Hkey. by apply elem_of_nil in Hkey.
  - intros _ Hstring. cbn [prompt_name].
    destruct (arguments !! "include_completed") as [v|] eqn:Hv.
    + destruct (Hstring v eq_refl) as [s ->].
      rewrite (task_summary_eq _ _ _ s) by (unfold get_default; by rewrite Hv).
      by eexists.
    + rewrite (task_summary_eq _ _ _ "true")
        by (unfold get_default; by rewrite Hv).
      by eexists.
  - intros key Hkey Hmissing. vm_compute in Hkey.
    apply list_elem_of_singleton in Hkey. subst key.
    cbn [prompt_name]. unfold handle_get_prompt.
    change (String.eqb "learning_plan" "task_summary") with false.
    change (String.eqb "learning_plan" "learning_plan") with true. cbv iota.
    unfold bind, getitem. by rewrite Hmissing.
  - intros Hkeys _. destruct (Hkeys "skill_level") as [v Hv];
      [vm_compute; apply list_elem_of_here|].
    cbn [prompt_name]. unfold handle_get_prompt.
    change (String.eqb "learning_plan" "task_summary") with false.
    change (String.eqb "learning_plan" "learning_plan") with true. cbv iota.
    unfold bind, getitem. rewrite Hv. by eexists.
  - intros key Hkey Hmissing. vm_compute in Hkey.
    apply list_elem_of_singleton in Hkey. subst key.
    cbn [prompt_name]. unfold handle_get_prompt.
    change (String.eqb "explain_concept" "task_summary") with false.
    change (String.eqb "explain_concept" "learning_plan") with false.
    change (String.eqb "explain_concept" "explain_concept") with true.
    cbv iota. unfold bind, getitem. by rewrite Hmissing.
  - intros Hkeys _. destruct (Hkeys "concept") as [v Hv];
      [vm_compute; apply list_elem_of_here|].
    cbn [prompt_name]. unfold handle_get_prompt.
    change (String.eqb "explain_concept" "task_summary") with false.
    change (String.eqb "explain_concept" "learning_plan") with false.
    change (String.eqb "explain_concept" "explain_concept") with true.
    cbv iota. unfold bind, getitem. rewrite Hv. by eexists.
Qed.

Lemma listed_prompt_required_arguments_witness :
  handle_get_prompt (fun _ => "[]") (fun s => s) "explain_concept" ∅ TASKS_DB
  = (Py.Raise (Py.Exn Py.KeyError "'concept'"), TASKS_DB).
Proof.
  refine (proj1 (listed_prompt_required_arguments (fun _ => "[]") (fun s => s)
            (mkPrompt "explain_concept" "Explain an MCP concept in detail"
               [mkPromptArgument "concept"
                  "The MCP concept to explain (tools, resources, prompts, servers, clients)"
                  true])
            ∅ TASKS_DB _) "concept" _ _).
  - unfold handle_list_prompts. do 2 apply list_elem_of_further.
    apply list_elem_of_here.
  - vm_compute. apply list_elem_of_here.
  - reflexivity.
Defined.

(** X17: [task_summary] shows completed tasks only when the lower-cased
    [include_completed] is exactly [true]: any other string, such as [yes],
    restricts the data to the tasks that are not completed, in store order;
    a value that is not a string, such as a JSON boolean, makes the handler
    raise [AttributeError]. *)
Theorem task_summary_include_completed
    (json_dumps_tasks : list Task -> string) (str_lower : string -> string)
    (arguments : gmap string Py.value) (db : list Task) :
  (forall s, arguments !! "include_completed" = Some (Py.Str s) ->
     str_lower s <> "true" ->
     handle_get_prompt json_dumps_tasks str_lower "task_summary" arguments db
     = (Py.Return
          (user_prompt "Task summary prompt with current task data"
             ("Please provide a summary of pending tasks only."
              +:+ Py.LF +:+ Py.LF +:+ "Current tasks data:" +:+ Py.LF
              +:+ json_dumps_tasks
                    (filter (fun task => tk_completed task = false) db))),
        db))
  /\ (forall s,
        (arguments !! "include_completed" = Some (Py.Str s)
         \/ (arguments !! "include_completed" = None /\ s = "true")) ->
        str_lower s = "true" ->
        handle_get_prompt json_dumps_tasks str_lower "task_summary" arguments db
        = (Py.Return
             (user_prompt "Task summary prompt with current task data"
                ("Please provide a comprehensive summary of all tasks (completed and pending)."
                 +:+ Py.LF +:+ Py.LF +:+ "Current tasks data:" +:+ Py.LF
                 +:+ json_dumps_tasks db)),
           db))
  /\ (forall v, arguments !! "include_completed" = Some v ->
        (forall s, v <> Py.Str s) ->
        handle_get_prompt json_dumps_tasks str_lower "task_summary" arguments db
        = (Py.Raise (Py.Exn Py.AttributeError
                       ("'" +:+ Py.type_name v
                        +:+ "' object has no attribute 'lower'")),
           db)).
Proof.
  split; [|split].
  - intros s Harg Hlow.
    rewrite (task_summary_eq _ _ _ s) by (unfold get_default; by rewrite Harg).
    apply String.eqb_neq in Hlow. by rewrite Hlow.
  - intros s Harg Hlow.
    rewrite (task_summary_eq _ _ _ s).
    + by rewrite Hlow.
    + unfold get_default. by destruct Harg as [->|[-> ->]].
  - intros v Harg Hnot. unfold handle_get_prompt.
    change (String.eqb "task_summary" "task_summary") with true. cbv iota.
    unfold bind, lower, get_default. rewrite Harg. cbn [default].
    destruct v as [n|s|b|]; try done. by destruct (Hnot s).
Qed.

(** ** Identifiers that are not integers *)

(** X18: a [task_id] given as a string (also one that spells the number) or
    as [None] equals no identifier: [complete_task] then reports the task as
    not found and changes nothing, whatever the store holds. *)
Theorem complete_task_non_integer_id
    (eval_rest : string -> Py.outcome string) (now : string)
    (arguments : gmap string Py.value) (task_id : Py.value) (db : list Task) :
  arguments !! "task_id" = Some task_id ->
  (forall n, task_id <> Py.Int n) ->
  (forall b, task_id <> Py.Bool b) ->
  handle_call_tool eval_rest now "complete_task" arguments db
  = (Py.Return (text_result ("Task with ID " +:+ Py.str task_id
                             +:+ " not found.")),
     db).
Proof.
  intros Harg Hint Hbool.
  change (handle_call_tool eval_rest now "complete_task" arguments db)
    with (complete_task arguments db).
  apply complete_task_not_found; [done|].
  apply complete_loop_None. intros task _.
  destruct task_id as [n|s|b|]; [by destruct (Hint n)|done|by destruct (Hbool b)|done].
Qed.

Lemma complete_task_non_integer_id_witness :
  handle_call_tool no_rest "2025-08-16" "complete_task"
                   (<["task_id" := Py.Str "1"]> ∅) TASKS_DB
  = (Py.Return (text_result "Task with ID 1 not found."), TASKS_DB).
Proof.
  apply (complete_task_non_integer_id no_rest "2025-08-16"
           (<["task_id" := Py.Str "1"]> ∅) (Py.Str "1") TASKS_DB).
  - vm_compute. reflexivity.
  - intros n Heq. discriminate Heq.
  - intros b Heq. discriminate Heq.
Defined.
